(** * vot_toolkit: the analysis document module and the command line driver

    A shallow embedding of [vot/analysis/document.py] and [vot/__main__.py].
    Python values are a small universe of dynamically typed values, every
    operation that Python can refuse returns in an error monad, and the
    command line driver threads a state made of the log and the files on
    disk. *)

From Stdlib Require Import ZArith Ascii String List Lia.
From stdpp Require Import base tactics option list strings pretty gmap.

Open Scope string_scope.
Open Scope Z_scope.
Open Scope list_scope.

(** ** Python values, exceptions and the built-ins the module relies on *)

Module Py.

(** [enumerate(l)] *)
Fixpoint enumerate_from {A : Type} (i : Z) (l : list A) : list (Z * A) :=
  match l with
  | [] => []
  | x :: rest => (i, x) :: enumerate_from (i + 1) rest
  end.
Definition enumerate {A : Type} (l : list A) : list (Z * A) :=
  enumerate_from 0 l.

(** The values that reach the document module.  Objects of the toolkit's
    classes are identified by the fields the module reads; the per-output
    values of an analysis are opaque to the module and stand here as
    integers. *)
#[warnings="-register-all"] Inductive value : Type :=
| VNone
| VInt (n : Z)
| VStr (s : string)
| VTuple (items : list value)
| VList (items : list value)
| VDict (entries : list (value * value))
| VMeasure (abbreviation : string)
| VCurve (abbreviation : string)
| VTracker (identifier label : string)
| VExperiment (identifier : string)
| VAnalysis (name : string) (descriptions : list value).

Inductive exn : Type :=
| TypeError
| ValueError
| KeyError (key : value)
| IndexError
| AttributeError
| NotImplementedError
| UnsupportedOperation
| ArgumentError
| Failure (message : string).

(** The outcome of evaluating an expression: a value or a raised exception. *)
Inductive result (A : Type) : Type :=
| Ok (a : A)
| Raise (e : exn).
Arguments Ok {A} a.
Arguments Raise {A} e.

#[export] Instance result_ret : MRet result := @Ok.
#[export] Instance result_bind : MBind result := fun A B f m =>
  match m with
  | Ok a => f a
  | Raise e => Raise e
  end.

Definition raised {A : Type} (r : result A) : bool :=
  match r with Ok _ => false | Raise _ => true end.

(** A [for] loop that updates its locals [S] and stops at the first
    exception. *)
Definition foldM {A S : Type} (f : S -> A -> result S)
    : S -> list A -> result S :=
  fix go (s : S) (l : list A) {struct l} : result S :=
    match l with
    | [] => Ok s
    | x :: rest => s' ← f s x; go s' rest
    end.

(** A list comprehension. *)
Definition traverse {A B : Type} (f : A -> result B)
    : list A -> result (list B) :=
  fix go (l : list A) {struct l} : result (list B) :=
    match l with
    | [] => Ok []
    | x :: rest => y ← f x; ys ← go rest; Ok (y :: ys)
    end.

(** [a == b].  An object is the same as another when the fields that
    identify it are; the cells and keys compared hold no dict, so that the
    order of the entries of a dict plays no part. *)
Fixpoint value_eqb (a b : value) {struct a} : bool :=
  let fix all_eqb (l1 l2 : list value) {struct l1} : bool :=
    match l1, l2 with
    | [], [] => true
    | x :: r1, y :: r2 => value_eqb x y && all_eqb r1 r2
    | _, _ => false
    end in
  let fix entries_eqb (l1 l2 : list (value * value)) {struct l1} : bool :=
    match l1, l2 with
    | [], [] => true
    | (k1, v1) :: r1, (k2, v2) :: r2 =>
        value_eqb k1 k2 && value_eqb v1 v2 && entries_eqb r1 r2
    | _, _ => false
    end in
  match a, b with
  | VNone, VNone => true
  | VInt n, VInt m => Z.eqb n m
  | VStr s, VStr t => String.eqb s t
  | VTuple l1, VTuple l2 => all_eqb l1 l2
  | VList l1, VList l2 => all_eqb l1 l2
  | VDict l1, VDict l2 => entries_eqb l1 l2
  | VMeasure s, VMeasure t => String.eqb s t
  | VCurve s, VCurve t => String.eqb s t
  | VTracker i1 l1, VTracker i2 l2 => String.eqb i1 i2 && String.eqb l1 l2
  | VExperiment i1, VExperiment i2 => String.eqb i1 i2
  | VAnalysis n1 d1, VAnalysis n2 d2 => String.eqb n1 n2 && all_eqb d1 d2
  | _, _ => false
  end.

(** [hash(v)] succeeds: lists and dicts are unhashable, a tuple is
    hashable when its items are. *)
Fixpoint hashable (v : value) : bool :=
  match v with
  | VList _ | VDict _ => false
  | VTuple items => forallb hashable items
  | _ => true
  end.

Definition is_none (v : value) : bool :=
  match v with VNone => true | _ => false end.

(** [isinstance(v, Measure)] and [isinstance(v, Curve)] *)
Definition isinstance_Measure (v : value) : bool :=
  match v with VMeasure _ => true | _ => false end.
Definition isinstance_Curve (v : value) : bool :=
  match v with VCurve _ => true | _ => false end.

Fixpoint characters (s : string) : list value :=
  match s with
  | EmptyString => []
  | String c rest => VStr (String c EmptyString) :: characters rest
  end.

(** What a [for] statement draws from [v]: the items of a tuple or list,
    the keys of a dict, the characters of a string; other values are not
    iterable. *)
Definition iterate (v : value) : result (list value) :=
  match v with
  | VTuple items | VList items => Ok items
  | VDict entries => Ok (map fst entries)
  | VStr s => Ok (characters s)
  | _ => Raise TypeError
  end.

(** The target list [a, b] of a [for a, b in ...] or of an assignment. *)
Definition unpack2 (v : value) : result (value * value) :=
  items ← iterate v;
  match items with
  | [a; b] => Ok (a, b)
  | _ => Raise ValueError
  end.

(** [v.items()] *)
Definition items (v : value) : result (list (value * value)) :=
  match v with
  | VDict entries => Ok entries
  | _ => Raise AttributeError
  end.

(** [v.describe()] *)
Definition describe (v : value) : result value :=
  match v with
  | VAnalysis _ descriptions => Ok (VTuple descriptions)
  | _ => Raise AttributeError
  end.

(** The attributes read by the module: a tracker has an [identifier] and a
    [label], an experiment an [identifier], an analysis a [name], a
    description an [abbreviation]. *)
Definition get_identifier (v : value) : result value :=
  match v with
  | VTracker identifier _ => Ok (VStr identifier)
  | VExperiment identifier => Ok (VStr identifier)
  | _ => Raise AttributeError
  end.
Definition get_label (v : value) : result value :=
  match v with
  | VTracker _ label => Ok (VStr label)
  | _ => Raise AttributeError
  end.
Definition get_abbreviation (v : value) : result value :=
  match v with
  | VMeasure abbreviation | VCurve abbreviation => Ok (VStr abbreviation)
  | _ => Raise AttributeError
  end.

(** Lookup in an insertion-ordered dict. *)
Fixpoint lookup_entry {B : Type} (key : value) (entries : list (value * B))
    : option B :=
  match entries with
  | [] => None
  | (k, v) :: rest => if value_eqb k key then Some v else lookup_entry key rest
  end.

(** [key in d] for a dict with entries [entries] *)
Definition contains {B : Type} (entries : list (value * B)) (key : value)
    : result bool :=
  if hashable key
  then Ok (match lookup_entry key entries with Some _ => true | None => false end)
  else Raise TypeError.

(** [l[i]] for a sequence, negative positions counted from the end *)
Definition index {B : Type} (l : list B) (i : Z) : result B :=
  let n := Z.of_nat (length l) in
  let j := if i <? 0 then i + n else i in
  if (j <? 0) || (n <=? j) then Raise IndexError
  else match nth_error l (Z.to_nat j) with
       | Some x => Ok x
       | None => Raise IndexError
       end.

(** [container[key]] *)
Definition getitem (container key : value) : result value :=
  match container with
  | VDict entries =>
      if hashable key
      then match lookup_entry key entries with
           | Some v => Ok v
           | None => Raise (KeyError key)
           end
      else Raise TypeError
  | VTuple l | VList l =>
      match key with
      | VInt i => index l i
      | _ => Raise TypeError
      end
  | VStr s =>
      match key with
      | VInt i => index (characters s) i
      | _ => Raise TypeError
      end
  | _ => Raise TypeError
  end.

(** [a + b] *)
Definition add (a b : value) : result value :=
  match a, b with
  | VInt n, VInt m => Ok (VInt (n + m))
  | VStr s, VStr t => Ok (VStr (s +:+ t))
  | VList l1, VList l2 => Ok (VList (l1 ++ l2))
  | VTuple l1, VTuple l2 => Ok (VTuple (l1 ++ l2))
  | _, _ => Raise TypeError
  end.

(** [len(v)] *)
Definition len (v : value) : result nat :=
  match v with
  | VStr s => Ok (String.length s)
  | VTuple l | VList l => Ok (length l)
  | VDict entries => Ok (length entries)
  | _ => Raise TypeError
  end.

End Py.

(** ** [vot/analysis/document.py] *)

Module Document.
Import Py.

(** *** [merge_repeats]

    [eqb] is the [==] of the objects in the sequence. *)

Section merge.
Context {A : Type} (eqb : A -> A -> bool).

(** The [for o in objects[1:]] loop with its three locals. *)
Fixpoint merge_loop (repeats : list (A * nat)) (previous : A) (count : nat)
    (objects : list A) : list (A * nat) :=
  match objects with
  | [] => repeats ++ [(previous, count)]
  | o :: rest =>
      if eqb o previous
      then merge_loop repeats previous (count + 1)%nat rest
      else merge_loop (repeats ++ [(previous, count)]) o 1%nat rest
  end.

Definition merge_repeats (objects : list A) : list (A * nat) :=
  match objects with
  | [] => []
  | first :: rest => merge_loop [] first 1%nat rest
  end.
End merge.

(** Each value repeated its count, concatenated. *)
Definition expand {A : Type} (repeats : list (A * nat)) : list A :=
  flat_map (fun vc => replicate (snd vc) (fst vc)) repeats.

(** No two neighbouring pairs carry the same value. *)
Fixpoint adjacent_distinct {A : Type} (repeats : list (A * nat)) : Prop :=
  match repeats with
  | [] => True
  | p :: rest =>
      match rest with
      | [] => True
      | q :: _ => fst p <> fst q
      end /\ adjacent_distinct rest
  end.

(** *** [extract_measures_table] *)

(** [table_header]: three lists that grow together. *)
Definition header : Type := list value * list value * list value.

(** [table_data]: a dict from tracker to its row, in insertion order. *)
Definition rows : Type := list (value * list value).

(** [table_data[tracker].append(x)] *)
Fixpoint row_append (data : rows) (tracker x : value) : result rows :=
  match data with
  | [] => Raise (KeyError tracker)
  | (k, row) :: rest =>
      if value_eqb k tracker then Ok ((k, row ++ [x]) :: rest)
      else rest' ← row_append rest tracker x; Ok ((k, row) :: rest')
  end.

(** Body of [for i, description in descriptions] (lines 21-27). *)
Definition header_step (experiment analysis : value) (h : header)
    (item : value) : result header :=
  '(i, description) ← unpack2 item;
  if is_none description then Ok h
  else if isinstance_Measure description then
    let '(h0, h1, h2) := h in
    Ok (h0 ++ [experiment], h1 ++ [analysis], h2 ++ [description])
  else Ok h.

(** Body of [for i, description in enumerate(descriptions)] (lines 32-36). *)
Definition cell_step (aresults tracker : value) (data : rows)
    (p : Z * value) : result rows :=
  let '(i, description) := p in
  if is_none description then Ok data
  else if isinstance_Measure description then
    tresults ← getitem aresults tracker;
    x ← getitem tresults (VInt i);
    row_append data tracker x
  else Ok data.

(** Body of [for tracker, tresult in aresults] (lines 29-36). *)
Definition row_step (aresults descriptions : value) (data : rows)
    (item : value) : result rows :=
  '(tracker, tresult) ← unpack2 item;
  present ← contains data tracker;
  let data := if (present : bool) then data else data ++ [(tracker, [])] in
  ds ← iterate descriptions;
  foldM (cell_step aresults tracker) data (enumerate ds).

(** Body of [for analysis, aresults in eresults.items()]. *)
Definition analysis_step (experiment : value) (acc : header * rows)
    (entry : value * value) : result (header * rows) :=
  let '(analysis, aresults) := entry in
  let '(h, data) := acc in
  descriptions ← describe analysis;
  ds ← iterate descriptions;
  h ← foldM (header_step experiment analysis) h ds;
  ts ← iterate aresults;
  data ← foldM (row_step aresults descriptions) data ts;
  Ok (h, data).

(** Body of [for experiment, eresults in results.items()]. *)
Definition experiment_step (acc : header * rows) (entry : value * value)
    : result (header * rows) :=
  let '(experiment, eresults) := entry in
  analyses ← items eresults;
  foldM (analysis_step experiment) acc analyses.

Definition extract_measures_table (results : value) : result (header * rows) :=
  experiments ← items results;
  foldM experiment_step (([], [], []), []) experiments.

(** The number of Measure descriptions in what an analysis describes. *)
Definition measure_count (analysis : value) : nat :=
  match analysis with
  | VAnalysis _ descriptions =>
      length (List.filter isinstance_Measure descriptions)
  | _ => 0%nat
  end.

(** The number of Measure-tagged output positions of a result mapping, over
    all its (experiment, analysis) pairs. *)
Definition measure_positions (results : value) : nat :=
  match results with
  | VDict experiments =>
      list_sum
        (map (fun er =>
                match snd er with
                | VDict analyses =>
                    list_sum (map (fun ar => measure_count (fst ar)) analyses)
                | _ => 0%nat
                end) experiments)
  | _ => 0%nat
  end.

(** *** [extract_plots] *)

(** Body of [for i, description in descriptions] (lines 50-56); the locals
    are [curves] and [measures]. *)
Definition collect_step (acc : list value * list value) (item : value)
    : result (list value * list value) :=
  let '(curves, measures) := acc in
  '(i, description) ← unpack2 item;
  if is_none description then Ok acc
  else
    let measures :=
      if isinstance_Measure description then measures ++ [description]
      else measures in
    let curves :=
      if isinstance_Curve description then curves ++ [description]
      else curves in
    Ok (curves, measures).

(** [plots]: a dict, never written to. *)
Definition plots : Type := list (value * value).

Definition plots_analysis_step (acc : plots) (entry : value * value)
    : result plots :=
  let '(analysis, aresults) := entry in
  descriptions ← describe analysis;
  ds ← iterate descriptions;
  '(curves, measures) ← foldM collect_step ([], []) ds;
  if Nat.eqb (length measures) 2 then Ok acc (* pass *) else Ok acc.

Definition plots_experiment_step (acc : plots) (entry : value * value)
    : result plots :=
  let '(experiment, eresults) := entry in
  analyses ← items eresults;
  foldM plots_analysis_step acc analyses.

Definition extract_plots (results : value) : result plots :=
  experiments ← items results;
  foldM plots_experiment_step [] experiments.

(** *** [generate_json_document] *)

(** The document that [json.dump] writes, before it is laid out as text. *)
#[warnings="-register-all"] Inductive json : Type :=
| JNull
| JInt (n : Z)
| JStr (s : string)
| JArr (elements : list json)
| JObj (members : list (string * json)).

(** [StringifyEncoder.default]; its last line is the base class's
    [default], which raises [TypeError]. *)
Definition default (obj : value) : result value :=
  match obj with
  | VAnalysis name _ => Ok (VStr name)
  | VTracker _ label => Ok (VStr label)
  | VExperiment identifier => Ok (VStr identifier)
  | _ => Raise TypeError
  end.

(** A dict key in the encoder: strings as they are, integers and [None]
    coerced, anything else refused ([skipkeys] is left at [False]).  The
    [default] hook is not consulted for keys. *)
Definition encode_key (key : value) : result string :=
  match key with
  | VStr s => Ok s
  | VInt n => Ok (pretty n)
  | VNone => Ok "null"
  | _ => Raise TypeError
  end.

(** The encoder applied to what [default] returned. *)
Definition encode_projected (v : value) : result json :=
  match v with
  | VNone => Ok JNull
  | VInt n => Ok (JInt n)
  | VStr s => Ok (JStr s)
  | _ => Raise TypeError
  end.

(** [json.dump(results, fp, indent=2, cls=StringifyEncoder)], up to the
    layout of the text. *)
Fixpoint encode (v : value) : result json :=
  match v with
  | VNone => Ok JNull
  | VInt n => Ok (JInt n)
  | VStr s => Ok (JStr s)
  | VTuple l | VList l => elements ← traverse encode l; Ok (JArr elements)
  | VDict entries =>
      members ← traverse (fun kv =>
                   k ← encode_key (fst kv);
                   j ← encode (snd kv);
                   Ok (k, j)) entries;
      Ok (JObj members)
  | obj => projected ← default obj; encode_projected projected
  end.

(** [d[name] = v] on a dict with string keys: the value of a name that is
    there already is replaced where it stands. *)
Fixpoint set_member (name : string) (v : value)
    (entries : list (value * value)) : list (value * value) :=
  match entries with
  | [] => [(VStr name, v)]
  | (k, v') :: rest =>
      if value_eqb k (VStr name) then (k, v) :: rest
      else (k, v') :: set_member name v rest
  end.

(** What [json.load] builds from a document; of the members of an object
    with the same name the last one is kept. *)
Fixpoint parse (doc : json) : value :=
  match doc with
  | JNull => VNone
  | JInt n => VInt n
  | JStr s => VStr s
  | JArr elements => VList (map parse elements)
  | JObj members =>
      VDict (fold_left (fun entries m => set_member (fst m) (snd m) entries)
                       (map (fun m => (fst m, parse (snd m))) members) [])
  end.

(** A file opened for writing holds a whole document once the dump has
    returned, and a truncated one when the dump raised.  The file is one
    that [open] can create: its name is not empty and its directory is
    there. *)
Inductive file_content : Type :=
| Complete (doc : json)
| Truncated.

Definition generate_json_document (results : value) (filename : string)
    (files : gmap string file_content)
    : result unit * gmap string file_content :=
  match encode results with
  | Ok doc => (Ok tt, <[filename := Complete doc]> files)
  | Raise e => (Raise e, <[filename := Truncated]> files)
  end.

(** *** [generate_latex_document] *)

Inductive cell : Type :=
| Plain (v : value)
| MultiColumn (size : nat) (data : value).

Inductive line : Type :=
| HLine
| Row (cells : list cell)
| EndTableHeader.

Record longtable : Type := LongTable {
  table_spec : string;
  lines : list line
}.

(** [s * n] for a string *)
Fixpoint repeat_string (s : string) (n : nat) : string :=
  match n with
  | O => ""
  | S n' => s +:+ repeat_string s n'
  end.

(** [[MultiColumn(c[1], data=c[0].identifier) for c in merge_repeats(cells)]] *)
Definition spanning_cells (cells : list value) : result (list cell) :=
  traverse (fun c : value * nat =>
              data ← get_identifier (fst c);
              Ok (MultiColumn (snd c) data))
           (merge_repeats value_eqb cells).

(** The argument [path] and the flag [compile] are not read. *)
Definition generate_latex_document (results : value) (path : string)
    : result longtable :=
  '(table_header, table_data) ← extract_measures_table results;
  let '(h0, h1, h2) := table_header in
  (* len(table_header[2] + 1) *)
  extended ← add (VList h2) (VInt 1);
  width ← len extended;
  let spec := repeat_string "l " width in
  level1 ← spanning_cells h0;
  level2 ← spanning_cells h1;
  level3 ← traverse (fun c => a ← get_abbreviation c; Ok (Plain a)) h2;
  body ← traverse (fun td : value * list value =>
                     label ← get_label (fst td);
                     Ok (Row (Plain label :: map Plain (snd td))))
                  table_data;
  Ok (LongTable spec
        ([HLine; Row (Plain (VStr " ") :: level1);
          HLine; Row (Plain (VStr " ") :: level2);
          HLine; Row (Plain (VStr " ") :: level3);
          HLine; EndTableHeader; HLine] ++ body)).

Definition generate_html_document (results : value) (path : string)
    : result unit :=
  Raise NotImplementedError.

End Document.

(** ** [vot/__main__.py] *)

Module Main.
Import Py.

(** *** The collaborators of the command line driver

    The tracker runtime, the sequences, the experiments, the workspace and
    the stack resolver live outside the two modules; each is a record of
    what the driver calls on it, and any call may raise. *)

Record Runtime : Type := {
  initialize : Z -> result unit;
  update : Z -> result unit
}.

Module Tracker.
Record t : Type := {
  identifier : string;
  runtime : result Runtime
}.
End Tracker.

Module Sequence.
Record t : Type := {
  name : string;
  length : Z
}.
End Sequence.

(** The handle that [workspace.results(tracker, experiment, sequence)]
    returns. *)
Record Results : Type := {
  read : string -> result string
}.

Module Experiment.
Record t : Type := {
  identifier : string;
  execute : Tracker.t -> Sequence.t -> Results -> result unit;
  scan : Tracker.t -> Sequence.t -> Results -> result (bool * list string)
}.
End Experiment.

Module Workspace.
Record t : Type := {
  registry : list string;
  stack : list Experiment.t;
  dataset : list Sequence.t;
  results : Tracker.t -> Experiment.t -> Sequence.t -> Results
}.
End Workspace.

(** A resolved stack; [dataset] is the attribute that [hasattr] looks for. *)
Record Stack : Type := {
  dataset : option string
}.

Record World : Type := {
  load_trackers : list string -> result (list (string * Tracker.t));
  resolve_stack : string -> option Stack;
  initialize_workspace : string -> string -> result unit;
  download_vot_dataset : string -> string -> result unit;
  open_workspace : string -> result Workspace.t;
  dummy_sequence : Sequence.t;
  (** [datetime.now()] laid out by the archive name's format *)
  now : string
}.

(** The namespace that [parse_args] returns.  [action] is the name of the
    chosen sub-command, [None] when none was given; [registry] is a list,
    split at [os.pathsep] by the parser's action; [trackers] keeps its
    [None] default when the positional argument is left out. *)
Record Config : Type := {
  debug : bool;
  registry : list string;
  action : option string;
  tracker : string;
  stack : string;
  workspace : string;
  trackers : option string
}.

(** *** State: what the driver leaves behind *)

Inductive level : Type := DEBUG | INFO | ERROR.

Inductive event : Type :=
| SetLevel (l : level)
| Log (l : level) (format : string) (arguments : list value)
| Initialized (tracker : string) (frame : Z)
| Updated (tracker : string) (frame : Z)
| WorkspaceInitialized (path stack : string)
| DatasetDownloaded (bundle path : string)
| Executed (tracker experiment sequence : string)
| Scanned (tracker experiment sequence : string)
| HelpPrinted
| TracebackPrinted.

(** An archive on disk: its members by internal path. *)
Definition archive : Type := list (string * string).

Record state : Type := State {
  events : list event;
  disk : gmap string archive
}.

Definition initial : state := State [] ∅.

(** A command: it runs from a state, returns or raises, and leaves a state
    either way. *)
Definition prog (A : Type) : Type := state -> result A * state.

#[export] Instance prog_ret : MRet prog := fun A a s => (Ok a, s).
#[export] Instance prog_bind : MBind prog := fun A B f m s =>
  match m s with
  | (Ok a, s') => f a s'
  | (Raise e, s') => (Raise e, s')
  end.

Definition lift {A : Type} (r : result A) : prog A := fun s => (r, s).

Definition emit (e : event) : prog unit :=
  fun s => (Ok tt, State (events s ++ [e]) (disk s)).

Definition info (format : string) (arguments : list value) : prog unit :=
  emit (Log INFO format arguments).
Definition error (format : string) (arguments : list value) : prog unit :=
  emit (Log ERROR format arguments).

(** A [for] loop of a command, with its locals. *)
Definition foldP {A S : Type} (f : S -> A -> prog S)
    : S -> list A -> prog S :=
  fix go (acc : S) (l : list A) {struct l} : prog S :=
    match l with
    | [] => mret acc
    | x :: rest => acc' ← f acc x; go acc' rest
    end.

Definition forP {A : Type} (f : A -> prog unit) (l : list A) : prog unit :=
  foldP (fun _ x => f x) tt l.

(** *** Strings *)

(** A string stands for a [str] whose characters have a code of at most
    255.  The white space that [str.strip] removes among them: the ASCII
    white space, the next-line character and the no-break space. *)
Definition is_space (c : ascii) : bool :=
  let n := nat_of_ascii c in
  ((9 <=? n) && (n <=? 13) || (28 <=? n) && (n <=? 32)
   || (n =? 133) || (n =? 160))%nat.

Fixpoint lstrip (s : string) : string :=
  match s with
  | String c rest => if is_space c then lstrip rest else s
  | EmptyString => EmptyString
  end.

Fixpoint rstrip (s : string) : string :=
  match s with
  | String c rest =>
      match rstrip rest with
      | EmptyString => if is_space c then EmptyString else String c EmptyString
      | kept => String c kept
      end
  | EmptyString => EmptyString
  end.

Definition strip (s : string) : string := rstrip (lstrip s).

(** [s.split(sep)] for a separator of one character *)
Fixpoint split (sep : ascii) (s : string) : list string :=
  match s with
  | EmptyString => [EmptyString]
  | String c rest =>
      if Ascii.eqb c sep then EmptyString :: split sep rest
      else match split sep rest with
           | part :: parts => String c part :: parts
           | [] => [String c EmptyString]
           end
  end.

(** The characters that [repr] writes as they are: the printable ASCII
    characters and, above them, all but the controls, the no-break space
    and the soft hyphen. *)
Definition printable (n : nat) : bool :=
  ((32 <=? n) && (n <? 127)
   || (161 <=? n) && (n <=? 255) && negb (n =? 173))%nat.

Definition hex_digit (n : nat) : ascii :=
  ascii_of_nat (if (n <? 10)%nat then 48 + n else 87 + n).

Definition backslash : ascii := ascii_of_nat 92.
Definition single_quote : ascii := ascii_of_nat 39.
Definition double_quote : ascii := ascii_of_nat 34.

(** One character of a string in its [repr], between quotes [quote]. *)
Definition escaped (quote c : ascii) : string :=
  let n := nat_of_ascii c in
  if Ascii.eqb c quote || Ascii.eqb c backslash
  then String backslash (String c EmptyString)
  else if (n =? 9)%nat then String backslash "t"
  else if (n =? 10)%nat then String backslash "n"
  else if (n =? 13)%nat then String backslash "r"
  else if printable n then String c EmptyString
  else String backslash
         (String "x" (String (hex_digit (n / 16))
                        (String (hex_digit (n mod 16)) EmptyString))).

Fixpoint has_char (c : ascii) (s : string) : bool :=
  match s with
  | EmptyString => false
  | String c' rest => Ascii.eqb c' c || has_char c rest
  end.

Fixpoint escape_all (quote : ascii) (s : string) : string :=
  match s with
  | EmptyString => EmptyString
  | String c rest => escaped quote c +:+ escape_all quote rest
  end.

(** [str(ke)] for a [KeyError] on a string key, which is [repr(key)]:
    between single quotes, or between double quotes when the key holds a
    single quote and no double quote. *)
Definition quoted (key : string) : string :=
  let quote :=
    if has_char single_quote key && negb (has_char double_quote key)
    then double_quote else single_quote in
  String quote (escape_all quote key +:+ String quote EmptyString).

(** [registry[key]] *)
Fixpoint lookup_tracker (key : string) (registry : list (string * Tracker.t))
    : result Tracker.t :=
  match registry with
  | [] => Raise (KeyError (VStr key))
  | (k, tracker) :: rest =>
      if String.eqb k key then Ok tracker else lookup_tracker key rest
  end.

(** [range(start, stop)] *)
Definition range (start stop : Z) : list Z := seqZ start (stop - start).

(** *** [os.path.join] and the archive *)

(** One entry of [all_files]: the tuple
    [(f, experiment.identifier, sequence.name, results)]. *)
Definition entry : Type := string * string * string * Results.

(** What the driver passes to [os.path.join]: a string, or a whole entry. *)
Inductive path_arg : Type :=
| Str (s : string)
| Tuple (f : entry).

(** [os.fspath] *)
Definition fspath (a : path_arg) : result string :=
  match a with
  | Str s => Ok s
  | Tuple _ => Raise TypeError
  end.

Fixpoint ends_with_sep (s : string) : bool :=
  match s with
  | EmptyString => false
  | String c EmptyString => Ascii.eqb c "/"
  | String _ rest => ends_with_sep rest
  end.

Definition starts_with_sep (s : string) : bool :=
  match s with
  | String c _ => Ascii.eqb c "/"
  | EmptyString => false
  end.

(** [os.path.join(a, *p)] on a POSIX system *)
Definition os_path_join (a : path_arg) (p : list path_arg) : result string :=
  first ← fspath a;
  foldM (fun path b =>
           b ← fspath b;
           if starts_with_sep b then Ok b
           else if (String.eqb path "") || ends_with_sep path then Ok (path +:+ b)
           else Ok (path +:+ "/" +:+ b))
        first p.

(** [zipfile.ZipFile(name, 'w')]: the file is created, or emptied. *)
Definition create_archive (name : string) : prog unit :=
  fun s => (Ok tt, State (events s) (<[name := []]> (disk s))).

Fixpoint member (path : string) (members : archive) : option string :=
  match members with
  | [] => None
  | (p, content) :: rest =>
      if String.eqb p path then Some content else member path rest
  end.

(** [archive.open(path)]: the mode is left at its default, reading, which
    looks the member up. *)
Definition archive_open (name path : string) : prog string :=
  fun s =>
    match disk s !! name with
    | Some members =>
        match member path members with
        | Some content => (Ok content, s)
        | None => (Raise (KeyError (VStr path)), s)
        end
    | None => (Raise ValueError, s)
    end.

(** [copyfileobj(fin, fout)] into a member opened for reading: the first
    write is refused; nothing is written when the source is empty. *)
Definition copyfileobj (fin fout : string) : prog unit :=
  if String.eqb fin "" then mret tt else lift (Raise UnsupportedOperation).

(** *** The commands *)

Definition has_key (key : string) (registry : list (string * Tracker.t)) : bool :=
  existsb (fun kt => String.eqb (fst kt) key) registry.

Definition do_test (w : World) (config : Config) : prog unit :=
  trackers ← lift (load_trackers w (registry config));
  if negb (has_key (tracker config) trackers)
  then error "Tracker does not exist" []
  else
    tracker ← lift (lookup_tracker (tracker config) trackers);
    _ ← info "Generating dummy sequence" [];
    let sequence := dummy_sequence w in
    _ ← info "Obtaining runtime for tracker %s"
             [VStr (Tracker.identifier tracker)];
    runtime ← lift (Tracker.runtime tracker);
    _ ← info "Initializing tracker" [];
    _ ← emit (Initialized (Tracker.identifier tracker) 0);
    _ ← lift (initialize runtime 0);
    _ ← forP (fun i =>
                _ ← info "Updating on frame %d/%d"
                         [VInt i; VInt (Sequence.length sequence - 1)];
                _ ← emit (Updated (Tracker.identifier tracker) i);
                lift (update runtime i))
             (range 1 (Sequence.length sequence - 1));
    info "Test concluded successfuly" [].

Definition do_workspace (w : World) (config : Config) : prog unit :=
  match resolve_stack w (stack config) with
  | None => error "Stack not found" []
  | Some stack =>
      _ ← emit (WorkspaceInitialized (workspace config) (Main.stack config));
      _ ← lift (initialize_workspace w (workspace config) (Main.stack config));
      _ ← info "Initialized workspace in '%s'" [VStr (workspace config)];
      match dataset stack with
      | Some bundle =>
          _ ← info "Stack has a dataset attached, downloading bundle '%s'"
                   [VStr bundle];
          path ← lift (os_path_join (Str (workspace config)) [Str "sequences"]);
          _ ← emit (DatasetDownloaded bundle path);
          _ ← lift (download_vot_dataset w bundle path);
          info "Download completed" []
      | None => mret tt
      end
  end.

(** [[registry[t.strip()] for t in config.trackers.split(",")]]; [None] has
    no [split]. *)
Definition select_trackers (registry : list (string * Tracker.t))
    (trackers : option string) : result (list Tracker.t) :=
  match trackers with
  | None => Raise AttributeError
  | Some names =>
      traverse (fun t => lookup_tracker (strip t) registry) (split "," names)
  end.

Definition str_of_key (key : value) : string :=
  match key with
  | VStr k => quoted k
  | _ => ""
  end.

(** The unit of work of the evaluation: line 104. *)
Definition execute_unit (ws : Workspace.t) (tracker : Tracker.t)
    (experiment : Experiment.t) (sequence : Sequence.t) : prog unit :=
  _ ← info " |=== > Sequence %s" [VStr (Sequence.name sequence)];
  _ ← emit (Executed (Tracker.identifier tracker)
                     (Experiment.identifier experiment)
                     (Sequence.name sequence));
  lift (Experiment.execute experiment tracker sequence
          (Workspace.results ws tracker experiment sequence)).

(** The body of the loop over the experiments of the stack: lines 101-104. *)
Definition experiment_body (ws : Workspace.t) (tracker : Tracker.t)
    (experiment : Experiment.t) : prog unit :=
  _ ← info " |== > Running experiment %s"
           [VStr (Experiment.identifier experiment)];
  forP (execute_unit ws tracker experiment) (Workspace.dataset ws).

(** The three nested loops of lines 98-104. *)
Definition evaluate_matrix (ws : Workspace.t) (trackers : list Tracker.t)
    : prog unit :=
  forP (fun tracker =>
    _ ← info " |= > Evaluating tracker %s" [VStr (Tracker.identifier tracker)];
    forP (experiment_body ws tracker) (Workspace.stack ws))
  trackers.

Definition do_evaluate (w : World) (config : Config) : prog unit :=
  ws ← lift (open_workspace w (workspace config));
  _ ← info "Loaded workspace in '%s'" [VStr (workspace config)];
  registry ← lift (load_trackers w (Workspace.registry ws ++ registry config));
  _ ← info "Found data for %d trackers" [VInt (Z.of_nat (List.length registry))];
  match select_trackers registry (trackers config) with
  | Raise (KeyError key) => error "Tracker not found %s" [VStr (str_of_key key)]
  | Raise e => lift (Raise e)
  | Ok trackers =>
      _ ← evaluate_matrix ws trackers;
      info "Evaluation concluded successfuly" []
  end.

Definition do_analysis (w : World) (config : Config) : prog unit :=
  mret tt.

(** The body of the scan loop of lines 140-146; the locals are [all_files]
    and [can_finish]. *)
Definition scan_unit (ws : Workspace.t) (tracker : Tracker.t)
    (experiment : Experiment.t) (acc : list entry * bool)
    (sequence : Sequence.t) : prog (list entry * bool) :=
  let '(all_files, can_finish) := acc in
  let results := Workspace.results ws tracker experiment sequence in
  _ ← emit (Scanned (Tracker.identifier tracker)
                    (Experiment.identifier experiment)
                    (Sequence.name sequence));
  '(complete, files) ← lift (Experiment.scan experiment tracker sequence results);
  let all_files :=
    all_files ++ map (fun f => (f, Experiment.identifier experiment,
                                Sequence.name sequence, results)) files in
  if (complete : bool) then mret (all_files, can_finish)
  else
    _ ← error " X= > Results are not complete for experiment %s, sequence %s"
              [VStr (Experiment.identifier experiment);
               VStr (Sequence.name sequence)];
    mret (all_files, false).

Definition scan_matrix (ws : Workspace.t) (tracker : Tracker.t)
    : prog (list entry * bool) :=
  foldP (fun acc experiment =>
           _ ← info " |= > Scanning experiment %s"
                    [VStr (Experiment.identifier experiment)];
           foldP (scan_unit ws tracker experiment) acc (Workspace.dataset ws))
        ([], true) (Workspace.stack ws).

(** The body of the loop of lines 157-159. *)
Definition copy_entry (archive_name : string) (f : entry) : prog unit :=
  let '(f0, f1, f2, f3) := f in
  path ← lift (os_path_join (Str f1) [Str f2; Tuple f]);
  fout ← archive_open archive_name path;
  fin ← lift (read f3 f0);
  copyfileobj fin fout.

(** Lines 152-161: the archive, once every scan was complete. *)
Definition build_archive (w : World) (tracker : Tracker.t)
    (all_files : list entry) : prog unit :=
  _ ← info "Collected %d files, compressing to archive ..."
           [VInt (Z.of_nat (List.length all_files))];
  let archive_name := Tracker.identifier tracker +:+ "_" +:+ now w in
  _ ← create_archive archive_name;
  _ ← forP (copy_entry archive_name) all_files;
  info "Result packaging successful, archive available in %s"
       [VStr archive_name].

Definition do_pack (w : World) (config : Config) : prog unit :=
  ws ← lift (open_workspace w (workspace config));
  _ ← info "Loaded workspace in '%s'" [VStr (workspace config)];
  registry ← lift (load_trackers w (Workspace.registry ws ++ registry config));
  _ ← info "Found data for %d trackers" [VInt (Z.of_nat (List.length registry))];
  match lookup_tracker (tracker config) registry with
  | Raise (KeyError key) => error "Tracker not found %s" [VStr (str_of_key key)]
  | Raise e => lift (Raise e)
  | Ok tracker =>
      _ ← info "Packaging results for tracker %s"
               [VStr (Tracker.identifier tracker)];
      '(all_files, can_finish) ← scan_matrix ws tracker;
      if negb can_finish
      then error "Unable to continue, experiments not complete" []
      else build_archive w tracker all_files
  end.

(** *** [main] *)

(** Lines 200-214, once [parse_args] has returned [args]. *)
Definition dispatch (w : World) (args : Config) : prog unit :=
  _ ← (if debug args then emit (SetLevel DEBUG) else mret tt);
  match action args with
  | Some name =>
      if String.eqb name "test" then do_test w args
      else if String.eqb name "workspace" then do_workspace w args
      else if String.eqb name "evaluate" then do_evaluate w args
      else if String.eqb name "analyze" then do_analysis w args
      else if String.eqb name "pack" then do_pack w args
      else emit HelpPrinted
  | None => emit HelpPrinted
  end.

(** How the process ends: through [exit], or on an exception that nothing
    caught. *)
Inductive termination : Type :=
| Exit (status : Z)
| Uncaught (e : exn).

(** The status the interpreter reports to the caller of the process. *)
Definition exit_status (t : termination) : Z :=
  match t with
  | Exit status => status
  | Uncaught _ => 1
  end.

Definition main (w : World) (args : Config) (s : state) : termination * state :=
  match dispatch w args s with
  | (Ok _, s') => (Exit 0, s')
  | (Raise ArgumentError, s') =>
      (Exit 0, State (events s' ++ [TracebackPrinted]) (disk s'))
  | (Raise e, s') => (Uncaught e, s')
  end.

End Main.

(** ** The vocabulary of the statements about the driver *)

Module MainSpec.
Import Py Main.

(** A unit of the evaluation matrix. *)
Definition unit_of : Type := Tracker.t * Experiment.t * Sequence.t.

(** The matrix in the order of the loops: trackers, then experiments in
    stack order, then sequences in dataset order. *)
Definition matrix (ws : Workspace.t) (trackers : list Tracker.t)
    : list unit_of :=
  flat_map (fun tracker =>
    flat_map (fun experiment =>
      map (fun sequence => (tracker, experiment, sequence))
          (Workspace.dataset ws))
      (Workspace.stack ws))
    trackers.

(** What [experiment.execute] does on a unit. *)
Definition run_unit (ws : Workspace.t) (u : unit_of) : result unit :=
  let '(tracker, experiment, sequence) := u in
  Experiment.execute experiment tracker sequence
    (Workspace.results ws tracker experiment sequence).

Definition executed_event (u : unit_of) : event :=
  let '(tracker, experiment, sequence) := u in
  Executed (Tracker.identifier tracker) (Experiment.identifier experiment)
           (Sequence.name sequence).

Definition is_executed (e : event) : bool :=
  match e with Executed _ _ _ => true | _ => false end.

(** The calls of [execute] that a state records, in order. *)
Definition executed (s : state) : list event :=
  List.filter is_executed (events s).

(** The outcome of running units one after the other until one raises,
    and the calls made, after those of [calls]. *)
Fixpoint run_units (ws : Workspace.t) (units : list unit_of)
    (calls : list event) : result unit * list event :=
  match units with
  | [] => (Ok tt, calls)
  | u :: rest =>
      match run_unit ws u with
      | Ok _ => run_units ws rest (calls ++ [executed_event u])
      | Raise e => (Raise e, calls ++ [executed_event u])
      end
  end.

(** The state in which the selection of the trackers is made. *)
Definition loaded (config : Config) (known : list (string * Tracker.t))
    (s : state) : state :=
  State (events s
         ++ [Log INFO "Loaded workspace in '%s'" [VStr (workspace config)];
             Log INFO "Found data for %d trackers"
                 [VInt (Z.of_nat (List.length known))]])
        (disk s).

(** The (experiment, sequence) pairs that packaging scans for a tracker. *)
Definition pairs (ws : Workspace.t) : list (Experiment.t * Sequence.t) :=
  flat_map (fun experiment =>
    map (fun sequence => (experiment, sequence)) (Workspace.dataset ws))
    (Workspace.stack ws).

(** What [experiment.scan] answers on a pair. *)
Definition scan_of (ws : Workspace.t) (tracker : Tracker.t)
    (u : Experiment.t * Sequence.t) : result (bool * list string) :=
  Experiment.scan (fst u) tracker (snd u)
    (Workspace.results ws tracker (fst u) (snd u)).

Definition scanned_event (tracker : Tracker.t)
    (u : Experiment.t * Sequence.t) : event :=
  Scanned (Tracker.identifier tracker) (Experiment.identifier (fst u))
          (Sequence.name (snd u)).

Definition is_scanned (e : event) : bool :=
  match e with Scanned _ _ _ => true | _ => false end.

(** The calls of [scan] that a state records, in order. *)
Definition scanned (s : state) : list event :=
  List.filter is_scanned (events s).

(** The line that reports an incomplete pair. *)
Definition incomplete_report (u : Experiment.t * Sequence.t) : event :=
  Log ERROR " X= > Results are not complete for experiment %s, sequence %s"
      [VStr (Experiment.identifier (fst u)); VStr (Sequence.name (snd u))].

(** The entries that a pair contributes to [all_files]. *)
Definition entries_of (ws : Workspace.t) (tracker : Tracker.t)
    (u : Experiment.t * Sequence.t) : list entry :=
  match scan_of ws tracker u with
  | Ok (_, files) =>
      map (fun f => (f, Experiment.identifier (fst u), Sequence.name (snd u),
                     Workspace.results ws tracker (fst u) (snd u))) files
  | Raise _ => []
  end.

(** The pair is scanned as complete. *)
Definition complete_of (ws : Workspace.t) (tracker : Tracker.t)
    (u : Experiment.t * Sequence.t) : bool :=
  match scan_of ws tracker u with
  | Ok (complete, _) => complete
  | Raise _ => false
  end.

(** What the scan loop has done once it went through [units], from the
    locals [acc] in the state [s] to the locals [acc'] in the state [s']. *)
Definition scan_post (ws : Workspace.t) (tracker : Tracker.t)
    (units : list (Experiment.t * Sequence.t))
    (acc : list entry * bool) (s : state)
    (acc' : list entry * bool) (s' : state) : Prop :=
  fst acc' = fst acc ++ flat_map (entries_of ws tracker) units
  /\ snd acc' = snd acc && forallb (complete_of ws tracker) units
  /\ disk s' = disk s
  /\ scanned s' = scanned s ++ map (scanned_event tracker) units
  /\ (forall ev, In ev (events s) -> In ev (events s'))
  /\ (forall u, In u units -> complete_of ws tracker u = false ->
        In (incomplete_report u) (events s')).

(** The state in which packaging starts to scan. *)
Definition packaging (config : Config) (known : list (string * Tracker.t))
    (found : Tracker.t) (s : state) : state :=
  State (events (loaded config known s)
         ++ [Log INFO "Packaging results for tracker %s"
                 [VStr (Tracker.identifier found)]])
        (disk s).

(** Every scan of the matrix returns. *)
Definition scans_return (ws : Workspace.t) (tracker : Tracker.t) : Prop :=
  forall u, In u (pairs ws) ->
    exists complete files, scan_of ws tracker u = Ok (complete, files).

(** The failures that a command reports in the log before it returns. *)
Inductive reported_failure (w : World) (args : Config) : Prop :=
| test_tracker_not_found (trackers : list (string * Tracker.t)) :
    action args = Some "test" ->
    load_trackers w (registry args) = Ok trackers ->
    has_key (tracker args) trackers = false ->
    reported_failure w args
| workspace_stack_not_found :
    action args = Some "workspace" ->
    resolve_stack w (stack args) = None ->
    reported_failure w args
| evaluate_tracker_not_found (ws : Workspace.t)
    (known : list (string * Tracker.t)) (key : value) :
    action args = Some "evaluate" ->
    open_workspace w (workspace args) = Ok ws ->
    load_trackers w (Workspace.registry ws ++ registry args) = Ok known ->
    select_trackers known (trackers args) = Raise (KeyError key) ->
    reported_failure w args
| pack_tracker_not_found (ws : Workspace.t)
    (known : list (string * Tracker.t)) (key : value) :
    action args = Some "pack" ->
    open_workspace w (workspace args) = Ok ws ->
    load_trackers w (Workspace.registry ws ++ registry args) = Ok known ->
    lookup_tracker (tracker args) known = Raise (KeyError key) ->
    reported_failure w args
| pack_incomplete_results (ws : Workspace.t)
    (known : list (string * Tracker.t)) (found : Tracker.t)
    (u : Experiment.t * Sequence.t) (files : list string) :
    action args = Some "pack" ->
    open_workspace w (workspace args) = Ok ws ->
    load_trackers w (Workspace.registry ws ++ registry args) = Ok known ->
    lookup_tracker (tracker args) known = Ok found ->
    scans_return ws found ->
    In u (pairs ws) ->
    scan_of ws found u = Ok (false, files) ->
    reported_failure w args.

End MainSpec.

(** ** Scenarios

    Small inputs on which the functions above are run. *)

Module Scenario.
Import Py Main.

(** One experiment, one analysis that describes a single Measure, one
    tracker with one value. *)
Definition baseline : value := VExperiment "baseline".
Definition accuracy : value := VAnalysis "accuracy" [VMeasure "A"].
Definition tracker1 : value := VTracker "t1" "Tracker 1".
Definition one_measure : value :=
  VDict [(baseline, VDict [(accuracy, VDict [(tracker1, VList [VInt 5])])])].

(** An analysis that describes three Measures. *)
Definition precision : value :=
  VAnalysis "precision" [VMeasure "P"; VMeasure "R"; VMeasure "F"].
Definition three_measures : value :=
  VDict [(baseline, VDict [(precision, VDict [(tracker1, VList [VInt 1; VInt 2; VInt 3])])])].

(** An analysis that describes no output, with no tracker. *)
Definition silent : value := VAnalysis "silent" [].
Definition no_output : value :=
  VDict [(baseline, VDict [(silent, VDict [])])].

(** A workspace with one tracker, two sequences and one experiment. *)
Definition steady_runtime : Runtime :=
  {| initialize := fun _ => Ok tt; update := fun _ => Ok tt |}.
Definition t1 : Tracker.t :=
  {| Tracker.identifier := "t1"; Tracker.runtime := Ok steady_runtime |}.
Definition s1 : Sequence.t := {| Sequence.name := "s1"; Sequence.length := 10 |}.
Definition s2 : Sequence.t := {| Sequence.name := "s2"; Sequence.length := 10 |}.
Definition bundle : Results := {| read := fun _ => Ok "data" |}.

(** Runs and scans complete on every sequence, with one result file. *)
Definition steady : Experiment.t :=
  {| Experiment.identifier := "e1";
     Experiment.execute := fun _ _ _ => Ok tt;
     Experiment.scan := fun _ _ _ => Ok (true, ["out.txt"]) |}.

(** Raises on the first sequence. *)
Definition crashing : Experiment.t :=
  {| Experiment.identifier := "e1";
     Experiment.execute := fun _ sequence _ =>
       if String.eqb (Sequence.name sequence) "s1"
       then Raise (Failure "crash") else Ok tt;
     Experiment.scan := fun _ _ _ => Ok (true, ["out.txt"]) |}.

(** Has no complete results for the first sequence. *)
Definition unfinished : Experiment.t :=
  {| Experiment.identifier := "e1";
     Experiment.execute := fun _ _ _ => Ok tt;
     Experiment.scan := fun _ sequence _ =>
       if String.eqb (Sequence.name sequence) "s1"
       then Ok (false, []) else Ok (true, ["out.txt"]) |}.

Definition workspace_of (experiment : Experiment.t) : Workspace.t :=
  {| Workspace.registry := ["."];
     Workspace.stack := [experiment];
     Workspace.dataset := [s1; s2];
     Workspace.results := fun _ _ _ => bundle |}.

Definition world_of (experiment : Experiment.t) : World :=
  {| load_trackers := fun _ => Ok [("t1", t1)];
     resolve_stack := fun _ => None;
     initialize_workspace := fun _ _ => Ok tt;
     download_vot_dataset := fun _ _ => Ok tt;
     open_workspace := fun _ => Ok (workspace_of experiment);
     dummy_sequence := s1;
     now := "2020-01-01T00:00:00.000000" |}.

(** [vot evaluate t1], [vot evaluate], [vot pack t1], [vot test t2] and
    [vot workspace vot2020], as parsed. *)
Definition evaluate_t1 : Config :=
  {| debug := false; registry := ["."]; action := Some "evaluate";
     tracker := ""; stack := ""; workspace := "."; trackers := Some "t1" |}.
Definition evaluate_nothing : Config :=
  {| debug := false; registry := ["."]; action := Some "evaluate";
     tracker := ""; stack := ""; workspace := "."; trackers := None |}.
Definition pack_t1 : Config :=
  {| debug := false; registry := ["."]; action := Some "pack";
     tracker := "t1"; stack := ""; workspace := "."; trackers := None |}.
Definition test_t2 : Config :=
  {| debug := false; registry := ["."]; action := Some "test";
     tracker := "t2"; stack := ""; workspace := "."; trackers := None |}.
Definition workspace_vot2020 : Config :=
  {| debug := false; registry := ["."]; action := Some "workspace";
     tracker := ""; stack := "vot2020"; workspace := "."; trackers := None |}.

End Scenario.

(** ** [EnvDefault], the parser's action for [--registry] *)

Module EnvDefault.
Import Py Main.

(** What [default] and [values] hold: [None], a string, or the list that
    [split] returns. *)
Inductive setting : Type :=
| Unset
| Text (s : string)
| Parts (l : list string).

(** The truth value of a setting in a condition. *)
Definition truthy (d : setting) : bool :=
  match d with
  | Unset => false
  | Text s => negb (String.eqb s "")
  | Parts l => match l with [] => false | _ :: _ => true end
  end.

(** [os.environ[name]], when [name in os.environ] *)
Fixpoint getenv (name : string) (environ : list (string * string))
    : option string :=
  match environ with
  | [] => None
  | (k, v) :: rest => if String.eqb k name then Some v else getenv name rest
  end.

(** [default.split(separator)]: only a string has a [split]. *)
Definition split_setting (separator : ascii) (d : setting) : result setting :=
  match d with
  | Text s => Ok (Parts (split separator s))
  | Unset | Parts _ => Raise AttributeError
  end.

(** [__init__], up to the call of the base class: the [default] and the
    [required] that are handed to it.  The separator is one character, as
    [os.pathsep] is; [None] stands for a separator that is not given. *)
Definition init (environ : list (string * string)) (envvar : string)
    (required : bool) (default : setting) (separator : option ascii)
    : result (setting * bool) :=
  let default :=
    if negb (truthy default) && negb (String.eqb envvar "")
    then match getenv envvar environ with
         | Some v => Text v
         | None => default
         end
    else default in
  default ← match separator with
            | Some sep => split_setting sep default
            | None => Ok default
            end;
  let required := if required && truthy default then false else required in
  Ok (default, required).

(** [__call__]: what is stored in the namespace for the [values] given on
    the command line. *)
Definition call (separator : option ascii) (values : string) : setting :=
  match separator with
  | Some sep => Parts (split sep values)
  | None => Text values
  end.

(** [sep.join(parts)] *)
Fixpoint join (sep : ascii) (parts : list string) : string :=
  match parts with
  | [] => ""
  | [part] => part
  | part :: rest => part +:+ String sep (join sep rest)
  end.

(** The number of occurrences of a character in a string. *)
Fixpoint occurrences (c : ascii) (s : string) : nat :=
  match s with
  | EmptyString => 0%nat
  | String c' rest =>
      ((if Ascii.eqb c' c then 1 else 0) + occurrences c rest)%nat
  end.

End EnvDefault.

(** ** The vocabulary of the statements about the document module *)

Module DocumentSpec.
Import Py Document.

(** What [describe()] holds at a position: a description, or [None]. *)
Definition is_description (v : value) : bool :=
  is_none v || isinstance_Measure v || isinstance_Curve v.

Definition is_tracker (v : value) : bool :=
  match v with VTracker _ _ => true | _ => false end.

(** An analysis with the descriptions of its outputs, over the results of
    trackers. *)
Definition well_formed_analysis (entry : value * value) : bool :=
  match entry with
  | (VAnalysis _ descriptions, VDict tresults) =>
      forallb is_description descriptions
      && forallb (fun t => is_tracker (fst t)) tresults
  | _ => false
  end.

(** A result mapping of the shape experiment -> analysis -> tracker ->
    values. *)
Definition well_formed (results : value) : bool :=
  match results with
  | VDict experiments =>
      forallb (fun er =>
                 match snd er with
                 | VDict analyses => forallb well_formed_analysis analyses
                 | _ => false
                 end) experiments
  | _ => false
  end.

(** The analysis describes no output and holds no result. *)
Definition blank_analysis (entry : value * value) : bool :=
  match entry with
  | (VAnalysis _ [], VDict []) => true
  | _ => false
  end.

Definition blank (results : value) : bool :=
  match results with
  | VDict experiments =>
      forallb (fun er =>
                 match snd er with
                 | VDict analyses => forallb blank_analysis analyses
                 | _ => false
                 end) experiments
  | _ => false
  end.

(** The analysis describes no output. *)
Definition undescribed_analysis (entry : value * value) : bool :=
  match fst entry with
  | VAnalysis _ [] => true
  | _ => false
  end.

Definition undescribed (results : value) : bool :=
  match results with
  | VDict experiments =>
      forallb (fun er =>
                 match snd er with
                 | VDict analyses => forallb undescribed_analysis analyses
                 | _ => false
                 end) experiments
  | _ => false
  end.

(** What the loops of [extract_measures_table] keep true of the header and
    of the rows. *)
Definition aligned (table : header * rows) : Prop :=
  let '((h0, h1, h2), data) := table in
  length h0 = length h2
  /\ length h1 = length h2
  /\ Forall (fun d => isinstance_Measure d = true) h2
  /\ NoDup (map fst data).

(** The table with no column and no row. *)
Definition empty_table : header * rows := (([], [], []), []).

End DocumentSpec.

(** ** More vocabulary for the statements about the driver *)

Module DriverSpec.
Import Py Main MainSpec.

Definition is_frame_event (e : event) : bool :=
  match e with Initialized _ _ | Updated _ _ => true | _ => false end.

(** The calls on the tracker runtime that a state records, in order. *)
Definition frames (s : state) : list event :=
  List.filter is_frame_event (events s).

Definition is_download (e : event) : bool :=
  match e with DatasetDownloaded _ _ => true | _ => false end.

(** The downloads that a state records. *)
Definition downloads (s : state) : list event :=
  List.filter is_download (events s).



(** The name of the archive of a tracker. *)
Definition archive_name (w : World) (tracker : Tracker.t) : string :=
  Tracker.identifier tracker +:+ "_" +:+ now w.

(** The names that the dispatcher of [main] compares the action with. *)
Definition dispatched (name : string) : bool :=
  String.eqb name "test" || String.eqb name "workspace"
  || String.eqb name "evaluate" || String.eqb name "analyze"
  || String.eqb name "pack".

(** The state in which a command starts: the level is set when [--debug]
    is given. *)
Definition started (args : Config) (s : state) : state :=
  if debug args then State (events s ++ [SetLevel DEBUG]) (disk s) else s.

(** The first of the names of a trackers argument that, stripped, is not a
    key of the registry. *)
Fixpoint first_missing (known : list (string * Tracker.t))
    (parts : list string) : option string :=
  match parts with
  | [] => None
  | part :: rest =>
      if has_key (strip part) known then first_missing known rest
      else Some (strip part)
  end.

(** Where [do_workspace] has the dataset of a stack downloaded:
    [os.path.join(config.workspace, "sequences")]. *)
Definition sequences_path (workspace : string) : string :=
  if String.eqb workspace "" || ends_with_sep workspace
  then workspace +:+ "sequences"
  else workspace +:+ "/" +:+ "sequences".

(** What [do_test] records before the first update, and at the update on
    frame [i]; [last] is the number of the last frame. *)
Definition test_prologue (identifier : string) : list event :=
  [Log INFO "Generating dummy sequence" [];
   Log INFO "Obtaining runtime for tracker %s" [VStr identifier];
   Log INFO "Initializing tracker" [];
   Initialized identifier 0].

Definition update_events (identifier : string) (last i : Z) : list event :=
  [Log INFO "Updating on frame %d/%d" [VInt i; VInt last];
   Updated identifier i].

Definition test_concluded : event := Log INFO "Test concluded successfuly" [].

(** The body of the loop of lines 50-52. *)
Definition update_frame (runtime : Runtime) (identifier : string) (last i : Z)
    : prog unit :=
  _ ← info "Updating on frame %d/%d" [VInt i; VInt last];
  _ ← emit (Updated identifier i);
  lift (update runtime i).

End DriverSpec.

(** ** More scenarios *)

Module Cases.
Import Py Main Scenario.

(** A runtime that refuses to be initialized. *)
Definition broken_runtime : Runtime :=
  {| initialize := fun _ => Raise (Failure "no tracker process");
     update := fun _ => Ok tt |}.
Definition t3 : Tracker.t :=
  {| Tracker.identifier := "t3"; Tracker.runtime := Ok broken_runtime |}.

(** A runtime that fails at the update on frame 2. *)
Definition flaky_runtime : Runtime :=
  {| initialize := fun _ => Ok tt;
     update := fun i => if i =? 2 then Raise (Failure "lost") else Ok tt |}.
Definition t4 : Tracker.t :=
  {| Tracker.identifier := "t4"; Tracker.runtime := Ok flaky_runtime |}.

(** A dummy sequence of five frames. *)
Definition five_frames : Sequence.t :=
  {| Sequence.name := "dummy"; Sequence.length := 5 |}.



(** A world whose stack [vot2020] comes with a dataset. *)
Definition world_with_stack : World :=
  {| load_trackers := fun _ => Ok [("t1", t1); ("t3", t3); ("t4", t4)];
     resolve_stack := fun name =>
       if String.eqb name "vot2020" then Some {| dataset := Some "vot2020" |}
       else None;
     initialize_workspace := fun _ _ => Ok tt;
     download_vot_dataset := fun _ _ => Ok tt;
     open_workspace := fun _ => Ok (workspace_of steady);
     dummy_sequence := five_frames;
     now := "2020-01-01T00:00:00.000000" |}.

Definition test_t1 : Config :=
  {| debug := false; registry := ["."]; action := Some "test";
     tracker := "t1"; stack := ""; workspace := "."; trackers := None |}.
Definition test_t3 : Config :=
  {| debug := false; registry := ["."]; action := Some "test";
     tracker := "t3"; stack := ""; workspace := "."; trackers := None |}.
Definition test_t4 : Config :=
  {| debug := false; registry := ["."]; action := Some "test";
     tracker := "t4"; stack := ""; workspace := "."; trackers := None |}.
Definition workspace_here : Config :=
  {| debug := false; registry := ["."]; action := Some "workspace";
     tracker := ""; stack := "vot2020"; workspace := "here"; trackers := None |}.
Definition evaluate_t1_t2_t3 : Config :=
  {| debug := false; registry := ["."]; action := Some "evaluate";
     tracker := ""; stack := ""; workspace := ".";
     trackers := Some "t1, t2's ,t3" |}.
Definition pack_t2 : Config :=
  {| debug := false; registry := ["."]; action := Some "pack";
     tracker := "t2"; stack := ""; workspace := "."; trackers := None |}.
Definition analysis_here : Config :=
  {| debug := true; registry := ["."]; action := Some "analysis";
     tracker := ""; stack := ""; workspace := "."; trackers := None |}.

(** An analysis whose [describe()] holds (index, description) pairs, as the
    loop of line 21 reads them. *)
Definition paired : value :=
  VAnalysis "paired" [VTuple [VInt 0; VMeasure "A"]; VTuple [VInt 1; VNone]].
Definition paired_results : value :=
  VDict [(baseline, VDict [(paired, VDict [])])].

End Cases.

(** * Properties *)

(** ** The error monad *)

Module PyFacts.
Import Py.

(** A property of the locals that every iteration keeps is kept by a loop
    that returns. *)
Lemma foldM_invariant {A S : Type} (P : S -> Prop) (f : S -> A -> result S) :
  (forall s x s', P s -> f s x = Ok s' -> P s') ->
  forall l s s', P s -> foldM f s l = Ok s' -> P s'.
Proof.
  intros Hstep. induction l as [|x rest IH]; intros s s' Hs Hrun; simpl in Hrun.
  - now inversion Hrun; subst.
  - destruct (f s x) as [s1|e] eqn:E; simpl in Hrun; [|discriminate].
    eapply IH; [|exact Hrun]. eapply Hstep; eassumption.
Qed.

(** A loop raises when it holds an item on which the body raises whatever
    the locals are: at that item, if not before. *)
Lemma foldM_raises {A S : Type} (f : S -> A -> result S) (l : list A) (x : A) :
  In x l -> (forall s, raised (f s x) = true) ->
  forall s, raised (foldM f s l) = true.
Proof.
  intros Hx Hraises. induction l as [|y rest IH]; intros s; [destruct Hx|].
  simpl. destruct Hx as [->|Hx].
  - specialize (Hraises s). destruct (f s x); [discriminate|reflexivity].
  - destruct (f s y) as [s'|e]; [apply IH; exact Hx|reflexivity].
Qed.

Lemma traverse_raises {A B : Type} (f : A -> result B) (l : list A) (x : A) :
  In x l -> raised (f x) = true -> raised (traverse f l) = true.
Proof.
  intros Hx Hraises. induction l as [|y rest IH]; [destruct Hx|].
  simpl. destruct Hx as [->|Hx].
  - destruct (f x); [discriminate|reflexivity].
  - destruct (f y) as [b|e]; [|reflexivity]. simpl.
    specialize (IH Hx). destruct (traverse f rest); [discriminate|reflexivity].
Qed.

Lemma list_sum_positive (l : list nat) :
  (0 < list_sum l)%nat -> exists n, In n l /\ (0 < n)%nat.
Proof.
  induction l as [|n rest IH]; simpl; [lia|]. intros Hsum.
  destruct n as [|n].
  - destruct (IH Hsum) as (m & Hm & Hpos). exists m. split; [now right|exact Hpos].
  - exists (S n). split; [now left|lia].
Qed.

(** Induction on a value, with the property at hand for the values it
    holds. *)
Lemma value_ind_nested (P : value -> Prop) :
  P VNone ->
  (forall n, P (VInt n)) ->
  (forall s, P (VStr s)) ->
  (forall items, Forall P items -> P (VTuple items)) ->
  (forall items, Forall P items -> P (VList items)) ->
  (forall entries,
     Forall (fun kv => P (fst kv) /\ P (snd kv)) entries -> P (VDict entries)) ->
  (forall abbreviation, P (VMeasure abbreviation)) ->
  (forall abbreviation, P (VCurve abbreviation)) ->
  (forall identifier label, P (VTracker identifier label)) ->
  (forall identifier, P (VExperiment identifier)) ->
  (forall name descriptions,
     Forall P descriptions -> P (VAnalysis name descriptions)) ->
  forall v, P v.
Proof.
  intros HNone HInt HStr HTuple HList HDict HMeasure HCurve HTracker
         HExperiment HAnalysis.
  fix IH 1. intros [ |n|s|items|items|entries|a|a|i l|i|name descriptions].
  - exact HNone.
  - apply HInt.
  - apply HStr.
  - apply HTuple. induction items as [|x rest IHrest]; constructor;
      [apply IH|exact IHrest].
  - apply HList. induction items as [|x rest IHrest]; constructor;
      [apply IH|exact IHrest].
  - apply HDict. induction entries as [|[k v] rest IHrest]; constructor;
      [split; apply IH|exact IHrest].
  - apply HMeasure.
  - apply HCurve.
  - apply HTracker.
  - apply HExperiment.
  - apply HAnalysis. induction descriptions as [|x rest IHrest]; constructor;
      [apply IH|exact IHrest].
Qed.

(** The comparison of two sequences of values, item by item. *)
Lemma all_eqb_eq (l1 : list value) :
  Forall (fun a => forall b, value_eqb a b = true <-> a = b) l1 ->
  forall l2,
    (fix all_eqb (l1 l2 : list value) {struct l1} : bool :=
       match l1, l2 with
       | [], [] => true
       | x :: r1, y :: r2 => value_eqb x y && all_eqb r1 r2
       | _, _ => false
       end) l1 l2 = true <-> l1 = l2.
Proof.
  induction 1 as [|x r1 Hx _ IH]; intros [|y r2]; try (split; [discriminate|discriminate]).
  - split; reflexivity.
  - rewrite andb_true_iff, Hx, IH. split; [intros [-> ->]; reflexivity|].
    intros H. injection H as -> ->. split; reflexivity.
Qed.

Lemma entries_eqb_eq (l1 : list (value * value)) :
  Forall (fun kv => (forall b, value_eqb (fst kv) b = true <-> fst kv = b)
                    /\ (forall b, value_eqb (snd kv) b = true <-> snd kv = b))
         l1 ->
  forall l2,
    (fix entries_eqb (l1 l2 : list (value * value)) {struct l1} : bool :=
       match l1, l2 with
       | [], [] => true
       | (k1, v1) :: r1, (k2, v2) :: r2 =>
           value_eqb k1 k2 && value_eqb v1 v2 && entries_eqb r1 r2
       | _, _ => false
       end) l1 l2 = true <-> l1 = l2.
Proof.
  induction 1 as [|[k1 v1] r1 [Hk Hv] _ IH]; intros [|[k2 v2] r2];
    try (split; [discriminate|discriminate]).
  - split; reflexivity.
  - simpl in Hk, Hv. rewrite !andb_true_iff, Hk, Hv, IH.
    split; [intros [[-> ->] ->]; reflexivity|].
    intros H. injection H as -> -> ->. repeat split.
Qed.

(** [value_eqb] decides the equality of values. *)
Lemma value_eqb_eq (a b : value) : value_eqb a b = true <-> a = b.
Proof.
  revert b. induction a as
    [ |n|s|items IH|items IH|entries IH|x|x|i l|i|name descriptions IH]
    using value_ind_nested; intros b; destruct b; simpl;
    try (split; [discriminate|discriminate]).
  - split; reflexivity.
  - rewrite Z.eqb_eq. split; congruence.
  - rewrite String.eqb_eq. split; congruence.
  - rewrite (all_eqb_eq items IH). split; congruence.
  - rewrite (all_eqb_eq items IH). split; congruence.
  - rewrite (entries_eqb_eq entries IH). split; congruence.
  - rewrite String.eqb_eq. split; congruence.
  - rewrite String.eqb_eq. split; congruence.
  - rewrite andb_true_iff, !String.eqb_eq.
    split; [intros [-> ->]; reflexivity|].
    intros H. injection H as -> ->. split; reflexivity.
  - rewrite String.eqb_eq. split; congruence.
  - rewrite andb_true_iff, String.eqb_eq, (all_eqb_eq descriptions IH).
    split; [intros [-> ->]; reflexivity|].
    intros H. injection H as -> ->. split; reflexivity.
Qed.

End PyFacts.

(** ** [merge_repeats] is a run-length encoding *)

Module RepeatsFacts.
Import Py Document PyFacts.

Section merge.
Context {A : Type} (eqb : A -> A -> bool).
Hypothesis eqb_eq : forall x y, eqb x y = true <-> x = y.

Lemma expand_app (r1 r2 : list (A * nat)) :
  expand (r1 ++ r2) = expand r1 ++ expand r2.
Proof. unfold expand. apply flat_map_app. Qed.

Lemma replicate_snoc (c : nat) (x : A) :
  replicate c x ++ [x] = replicate (c + 1) x.
Proof.
  induction c as [|c IH]; simpl; [reflexivity|]. now rewrite IH.
Qed.

Lemma expand_merge_loop (objects : list A) :
  forall repeats previous count,
    expand (merge_loop eqb repeats previous count objects)
    = expand repeats ++ replicate count previous ++ objects.
Proof.
  induction objects as [|o rest IH]; intros repeats previous count; simpl.
  - rewrite expand_app. simpl. now rewrite !app_nil_r.
  - destruct (eqb o previous) eqn:E.
    + apply eqb_eq in E. subst o.
      rewrite IH. f_equal. rewrite <- replicate_snoc.
      now rewrite <- app_assoc.
    + rewrite IH, expand_app. simpl.
      now rewrite app_nil_r, <- app_assoc.
Qed.

(** One more pair at the end, with a value that differs from the last. *)
Lemma adjacent_distinct_snoc (r : list (A * nat)) (p q : A * nat) :
  adjacent_distinct (r ++ [p]) -> fst p <> fst q ->
  adjacent_distinct ((r ++ [p]) ++ [q]).
Proof.
  induction r as [|x r IH]; simpl; intros H Hpq.
  - tauto.
  - destruct H as [Hx Hr]. split; [|now apply IH].
    destruct r; simpl in *; assumption.
Qed.

(** The count of the last pair plays no part. *)
Lemma adjacent_distinct_last_count (r : list (A * nat)) (x : A) (c c' : nat) :
  adjacent_distinct (r ++ [(x, c)]) -> adjacent_distinct (r ++ [(x, c')]).
Proof.
  induction r as [|y r IH]; simpl; [tauto|].
  intros [Hy Hr]. split; [|now apply IH].
  destruct r; simpl in *; assumption.
Qed.

Lemma adjacent_distinct_merge_loop (objects : list A) :
  forall repeats previous count,
    adjacent_distinct (repeats ++ [(previous, count)]) ->
    adjacent_distinct (merge_loop eqb repeats previous count objects).
Proof.
  induction objects as [|o rest IH]; intros repeats previous count H; simpl.
  - exact H.
  - destruct (eqb o previous) eqn:E.
    + apply IH. now apply adjacent_distinct_last_count with count.
    + apply IH. apply adjacent_distinct_snoc; [exact H|].
      simpl. intros ->. 
      assert (eqb o o = true) as E' by now apply eqb_eq.
      congruence.
Qed.

(** Every run that is reported has at least one element. *)
Lemma merge_loop_counts_positive (objects : list A) :
  forall repeats previous count,
    Forall (fun vc => (0 < snd vc)%nat) repeats -> (0 < count)%nat ->
    Forall (fun vc => (0 < snd vc)%nat)
           (merge_loop eqb repeats previous count objects).
Proof.
  induction objects as [|o rest IH]; intros repeats previous count Hr Hc; simpl.
  - apply Forall_app. split; [exact Hr|]. constructor; [exact Hc|constructor].
  - destruct (eqb o previous).
    + apply IH; [exact Hr|lia].
    + apply IH; [|lia]. apply Forall_app. split; [exact Hr|].
      constructor; [exact Hc|constructor].
Qed.

Lemma merge_repeats_counts_positive (objects : list A) :
  Forall (fun vc => (0 < snd vc)%nat) (merge_repeats eqb objects).
Proof.
  destruct objects as [|first rest]; [constructor|].
  apply merge_loop_counts_positive; [constructor|lia].
Qed.

(** C4. For every ordered input whose cells are compared by an equality
    test, [merge_repeats] returns (value, run-length) pairs such that each
    value repeated its count, concatenated, gives the input back; no two
    adjacent pairs have equal values; the empty input gives the empty
    output; and a value that reappears after a different one starts a new
    pair: [a, a, b, a] gives [(a, 2), (b, 1), (a, 1)]. *)
Theorem merge_repeats_run_length (objects : list A) :
  expand (merge_repeats eqb objects) = objects
  /\ adjacent_distinct (merge_repeats eqb objects)
  /\ merge_repeats eqb [] = []
  /\ (forall a b : A, a <> b ->
        merge_repeats eqb [a; a; b; a] = [(a, 2%nat); (b, 1%nat); (a, 1%nat)]).
Proof.
  split; [|split; [|split]].
  - destruct objects as [|first rest]; [reflexivity|].
    unfold merge_repeats. now rewrite expand_merge_loop.
  - destruct objects as [|first rest]; [exact I|].
    unfold merge_repeats. apply adjacent_distinct_merge_loop.
    simpl. tauto.
  - reflexivity.
  - intros a b Hab. unfold merge_repeats. simpl.
    assert (eqb a a = true) as -> by now apply eqb_eq.
    destruct (eqb b a) eqn:Eba.
    { apply eqb_eq in Eba. congruence. }
    destruct (eqb a b) eqn:Eab.
    { apply eqb_eq in Eab. congruence. }
    reflexivity.
Qed.

End merge.

Lemma merge_repeats_run_length_witness :
  (forall x y : value, value_eqb x y = true <-> x = y)
  /\ expand (merge_repeats value_eqb
               [VStr "A"; VStr "A"; VStr "B"; VStr "A"])
     = [VStr "A"; VStr "A"; VStr "B"; VStr "A"]
  /\ adjacent_distinct (merge_repeats value_eqb
                          [VStr "A"; VStr "A"; VStr "B"; VStr "A"])
  /\ merge_repeats value_eqb [VStr "A"; VStr "A"; VStr "B"; VStr "A"]
     = [(VStr "A", 2%nat); (VStr "B", 1%nat); (VStr "A", 1%nat)].
Proof.
  pose proof (merge_repeats_run_length value_eqb value_eqb_eq
                [VStr "A"; VStr "A"; VStr "B"; VStr "A"])
    as (Hexp & Hadj & _ & Hex).
  split; [exact value_eqb_eq|].
  split; [exact Hexp|].
  split; [exact Hadj|].
  apply Hex. discriminate.
Defined.

End RepeatsFacts.

(** ** The document module *)

Module DocumentFacts.
Import Py Document Scenario PyFacts.

(** A description object, or [None], in place of an (index, description)
    pair cannot be unpacked. *)
Lemma unpack2_description (item : value) :
  is_none item = true \/ isinstance_Measure item = true
    \/ isinstance_Curve item = true ->
  unpack2 item = Raise TypeError.
Proof.
  destruct item; simpl; intros [H|[H|H]]; try discriminate; reflexivity.
Qed.

(** The table is not built as soon as the first analysis of the first
    experiment describes an output. *)
Lemma extract_measures_table_first_description
    (experiment : value) (name : string) (item : value)
    (others : list value) (aresults : value)
    (analyses experiments : list (value * value)) :
  is_none item = true \/ isinstance_Measure item = true
    \/ isinstance_Curve item = true ->
  extract_measures_table
    (VDict ((experiment,
             VDict ((VAnalysis name (item :: others), aresults) :: analyses))
            :: experiments))
  = Raise TypeError.
Proof.
  intros Hitem. unfold extract_measures_table. simpl.
  unfold header_step. rewrite (unpack2_description item Hitem). reflexivity.
Qed.

(** The loop of line 21 raises on the descriptions of an analysis that
    hold a Measure. *)
Lemma header_loop_raises (experiment analysis : value) (name : string)
    (descriptions : list value) (h : header) :
  (0 < measure_count (VAnalysis name descriptions))%nat ->
  raised (foldM (header_step experiment analysis) h descriptions) = true.
Proof.
  simpl. intros Hcount.
  destruct (List.filter isinstance_Measure descriptions) as [|d others] eqn:E;
    [simpl in Hcount; lia|].
  assert (In d (List.filter isinstance_Measure descriptions)) as Hd
    by (rewrite E; now left).
  apply filter_In in Hd as [Hin Hmeasure].
  apply (foldM_raises _ _ d Hin). intros h'. unfold header_step.
  rewrite unpack2_description by auto. reflexivity.
Qed.

(** Whenever the header of C1 is to have a column, the table is not
    built. *)
Lemma extract_measures_table_raises (results : value) :
  (0 < measure_positions results)%nat ->
  raised (extract_measures_table results) = true.
Proof.
  destruct results as [| | | | |experiments| | | | |]; simpl; try lia.
  intros Hsum. apply list_sum_positive in Hsum as (n & Hn & Hpos).
  apply in_map_iff in Hn as ([experiment eresults] & <- & Hexperiment).
  simpl in Hpos.
  destruct eresults as [| | | | |analyses| | | | |]; try lia.
  apply list_sum_positive in Hpos as (m & Hm & Hpos).
  apply in_map_iff in Hm as ([analysis aresults] & <- & Hanalysis).
  simpl in Hpos.
  unfold extract_measures_table. simpl.
  apply (foldM_raises _ _ _ Hexperiment). intros acc. simpl.
  apply (foldM_raises _ _ _ Hanalysis). intros [h data].
  unfold analysis_step.
  destruct analysis as [| | | | | | | | | |name descriptions];
    try (simpl in Hpos; lia).
  simpl.
  pose proof (header_loop_raises experiment (VAnalysis name descriptions)
                name descriptions h Hpos) as Hloop.
  destruct (foldM _ h descriptions); [discriminate|reflexivity].
Qed.

(** C1. On the result mapping with one experiment, one analysis that
    describes one Measure and one tracker, which has one Measure-tagged
    output position, [extract_measures_table] returns no header and no
    row: the loop of line 21 unpacks the Measure as an (index, description)
    pair and raises [TypeError]. *)
Theorem extract_measures_table_one_measure :
  measure_positions one_measure = 1%nat
  /\ extract_measures_table one_measure = Raise TypeError.
Proof. split; reflexivity. Qed.

(** The hook projects an object that stands where a value is expected,
    and the document reads back as the projections. *)
Lemma encode_object_values :
  forall (identifier label name : string) (descriptions : list value),
    encode (VList [VTracker identifier label; VExperiment identifier;
                   VAnalysis name descriptions])
    = Ok (JArr [JStr label; JStr identifier; JStr name])
    /\ parse (JArr [JStr label; JStr identifier; JStr name])
       = VList [VStr label; VStr identifier; VStr name].
Proof. intros. split; reflexivity. Qed.

(** The hook is not reached for the key of a mapping: a mapping with a key
    that is neither a string, an integer nor [None] is not encoded. *)
Lemma encode_mapping_key_raises (entries : list (value * value))
    (key v : value) :
  In (key, v) entries -> raised (encode_key key) = true ->
  raised (encode (VDict entries)) = true.
Proof.
  intros Hin Hkey. simpl.
  match goal with
  | |- context [traverse ?f entries] =>
      pose proof (traverse_raises f entries (key, v) Hin) as Hraises
  end.
  simpl in Hraises.
  destruct (encode_key key); [discriminate|].
  specialize (Hraises eq_refl).
  destruct (traverse _ entries); [discriminate|reflexivity].
Qed.

Lemma encode_key_object (identifier label name : string)
    (descriptions : list value) :
  raised (encode_key (VTracker identifier label)) = true
  /\ raised (encode_key (VExperiment identifier)) = true
  /\ raised (encode_key (VAnalysis name descriptions)) = true.
Proof. repeat split. Qed.

(** C6. On the result mapping with one experiment, one analysis and one
    tracker, the JSON export writes no document with their identifier,
    name and label: the three objects are keys of the mapping, the encoder
    refuses them with [TypeError], and the file is left truncated. *)
Theorem generate_json_document_one_measure :
  generate_json_document one_measure "results.json" ∅
  = (Raise TypeError, {[ "results.json" := Truncated ]}).
Proof. reflexivity. Qed.

(** C7. For every result mapping, [generate_latex_document] renders no
    table: when the measures table is built, line 108 adds the integer 1 to
    the list of level-3 header cells, which raises [TypeError]. *)
Theorem generate_latex_document_raises (results : value) (path : string) :
  (forall table, extract_measures_table results = Ok table ->
     generate_latex_document results path = Raise TypeError)
  /\ raised (generate_latex_document results path) = true
  /\ generate_latex_document (VDict []) path = Raise TypeError.
Proof.
  unfold generate_latex_document.
  destruct (extract_measures_table results) as [[[[h0 h1] h2] data]|e];
    simpl; repeat split; try reflexivity; intros; discriminate.
Qed.

(** No iteration of the loops of [extract_plots] writes to [plots]. *)
Lemma plots_analysis_step_keeps (acc acc' : plots) (entry : value * value) :
  plots_analysis_step acc entry = Ok acc' -> acc' = acc.
Proof.
  destruct entry as [analysis aresults]. unfold plots_analysis_step.
  destruct (describe analysis) as [d|]; simpl; [|discriminate].
  destruct (iterate d) as [ds|]; simpl; [|discriminate].
  destruct (foldM collect_step ([], []) ds) as [[curves measures]|]; simpl;
    [|discriminate].
  destruct (Nat.eqb (length measures) 2); congruence.
Qed.

Lemma plots_experiment_step_keeps (acc acc' : plots) (entry : value * value) :
  plots_experiment_step acc entry = Ok acc' -> acc' = acc.
Proof.
  destruct entry as [experiment eresults]. unfold plots_experiment_step.
  destruct (items eresults) as [analyses|]; simpl; [|discriminate].
  intros H.
  refine (foldM_invariant (fun p => p = acc) plots_analysis_step _
            analyses acc acc' eq_refl H).
  intros p x p' -> Hstep. now apply plots_analysis_step_keeps in Hstep.
Qed.

Lemma extract_plots_empty (results : value) (produced : plots) :
  extract_plots results = Ok produced -> produced = [].
Proof.
  unfold extract_plots.
  destruct (items results) as [experiments|]; simpl; [|discriminate].
  intros H.
  refine (foldM_invariant (fun p => p = []) plots_experiment_step _
            experiments [] produced eq_refl H).
  intros p x p' -> Hstep. now apply plots_experiment_step_keeps in Hstep.
Qed.

(** C8. On the result mapping whose analysis describes one Measure, plot
    extraction does not come back with no plot for that analysis: the loop
    of line 50 iterates the descriptions without [enumerate], as the loop
    of line 21 does, unpacks the Measure as an (index, description) pair
    and raises [TypeError], before the number of Measures is looked at.
    It does the same on an analysis of three Measures.  Only for an
    analysis that describes nothing does the extraction return, with no
    plot. *)
Theorem extract_plots_one_measure :
  measure_count accuracy = 1%nat
  /\ extract_plots one_measure = Raise TypeError
  /\ measure_count precision = 3%nat
  /\ extract_plots three_measures = Raise TypeError
  /\ measure_count silent = 0%nat
  /\ extract_plots no_output = Ok [].
Proof. repeat split. Qed.

End DocumentFacts.

(** ** The command line driver *)

Module MainFacts.
Import Py Main MainSpec Scenario.

(** *** Running a command step by step *)

Lemma bind_run {A B : Type} (m : prog A) (k : A -> prog B) (s : state) :
  (m ≫= k) s = match m s with
               | (Ok a, s') => k a s'
               | (Raise e, s') => (Raise e, s')
               end.
Proof. reflexivity. Qed.

Lemma emit_run (e : event) (s : state) :
  emit e s = (Ok tt, State (events s ++ [e]) (disk s)).
Proof. reflexivity. Qed.

Lemma lift_run {A : Type} (r : result A) (s : state) : lift r s = (r, s).
Proof. reflexivity. Qed.

Lemma foldP_nil {A S : Type} (f : S -> A -> prog S) (acc : S) (s : state) :
  foldP f acc [] s = (Ok acc, s).
Proof. reflexivity. Qed.

Lemma foldP_cons {A S : Type} (f : S -> A -> prog S) (acc : S) (x : A)
    (rest : list A) (s : state) :
  foldP f acc (x :: rest) s
  = match f acc x s with
    | (Ok acc', s') => foldP f acc' rest s'
    | (Raise e, s') => (Raise e, s')
    end.
Proof. reflexivity. Qed.

Lemma forP_nil {A : Type} (f : A -> prog unit) (s : state) :
  forP f [] s = (Ok tt, s).
Proof. reflexivity. Qed.

Lemma forP_cons {A : Type} (f : A -> prog unit) (x : A) (rest : list A)
    (s : state) :
  forP f (x :: rest) s
  = match f x s with
    | (Ok _, s') => forP f rest s'
    | (Raise e, s') => (Raise e, s')
    end.
Proof.
  unfold forP. rewrite foldP_cons. destruct (f x s) as [[[]|e] s']; reflexivity.
Qed.

(** *** The calls of [execute] in a state *)

Lemma executed_emit (s : state) (e : event) :
  executed (State (events s ++ [e]) (disk s))
  = executed s ++ (if is_executed e then [e] else []).
Proof.
  unfold executed. simpl. rewrite List.filter_app. simpl.
  destruct (is_executed e); reflexivity.
Qed.

Lemma run_units_app (ws : Workspace.t) (l1 l2 : list unit_of) :
  forall calls,
    run_units ws (l1 ++ l2) calls
    = match run_units ws l1 calls with
      | (Ok _, calls') => run_units ws l2 calls'
      | (Raise e, calls') => (Raise e, calls')
      end.
Proof.
  induction l1 as [|u rest IH]; intros calls; simpl; [reflexivity|].
  destruct (run_unit ws u); [apply IH|reflexivity].
Qed.

Lemma run_units_all_return (ws : Workspace.t) (units : list unit_of) :
  forall calls,
    Forall (fun u => run_unit ws u = Ok tt) units ->
    run_units ws units calls = (Ok tt, calls ++ map executed_event units).
Proof.
  induction units as [|u rest IH]; intros calls Hall; simpl.
  - now rewrite app_nil_r.
  - inversion Hall as [|? ? Hu Hrest]; subst. rewrite Hu.
    rewrite IH by assumption. now rewrite <- app_assoc.
Qed.

Lemma run_units_first_failure (ws : Workspace.t)
    (before after : list unit_of) (u : unit_of) (e : exn) :
  forall calls,
    Forall (fun u => run_unit ws u = Ok tt) before ->
    run_unit ws u = Raise e ->
    run_units ws (before ++ u :: after) calls
    = (Raise e, calls ++ map executed_event (before ++ [u])).
Proof.
  intros calls Hbefore Hu. rewrite run_units_app.
  rewrite run_units_all_return by assumption. simpl. rewrite Hu.
  now rewrite map_app, app_assoc.
Qed.

Lemma execute_unit_run (ws : Workspace.t) (tracker : Tracker.t)
    (experiment : Experiment.t) (q : Sequence.t) (s : state) :
  execute_unit ws tracker experiment q s
  = (run_unit ws (tracker, experiment, q),
     State (events s
            ++ [Log INFO " |=== > Sequence %s" [VStr (Sequence.name q)];
                executed_event (tracker, experiment, q)])
           (disk s)).
Proof.
  unfold execute_unit, info, emit, lift, mbind, prog_bind. simpl.
  now rewrite <- app_assoc.
Qed.

Lemma executed_log (s : state) (l : level) (format : string)
    (arguments : list value) :
  executed (State (events s ++ [Log l format arguments]) (disk s)) = executed s.
Proof. rewrite executed_emit. simpl. apply app_nil_r. Qed.

(** The loop over the sequences of one experiment. *)
Lemma sequences_loop (ws : Workspace.t) (tracker : Tracker.t)
    (experiment : Experiment.t) (sequences : list Sequence.t) :
  forall s r s',
    forP (execute_unit ws tracker experiment) sequences s = (r, s') ->
    (r, executed s')
    = run_units ws (map (fun q => (tracker, experiment, q)) sequences)
                (executed s)
    /\ disk s' = disk s.
Proof.
  induction sequences as [|q rest IH]; intros s r s' Hrun.
  - rewrite forP_nil in Hrun. inversion Hrun; subst. split; reflexivity.
  - rewrite forP_cons, execute_unit_run in Hrun.
    set (s1 := State _ _) in Hrun.
    assert (executed s1
            = executed s ++ [executed_event (tracker, experiment, q)]) as Hs1.
    { unfold s1, executed. simpl. rewrite List.filter_app. reflexivity. }
    cbn [map run_units]. rewrite <- Hs1.
    destruct (run_unit ws (tracker, experiment, q)) as [[]|e].
    + destruct (IH s1 r s' Hrun) as [IH1 IH2]. split; assumption.
    + inversion Hrun; subst. split; reflexivity.
Qed.

(** The loop over the experiments of the stack, for one tracker. *)
Lemma experiments_loop (ws : Workspace.t) (tracker : Tracker.t)
    (experiments : list Experiment.t) :
  forall s r s',
    forP (experiment_body ws tracker) experiments s = (r, s') ->
    (r, executed s')
    = run_units ws
        (flat_map (fun experiment =>
           map (fun q => (tracker, experiment, q)) (Workspace.dataset ws))
           experiments)
        (executed s)
    /\ disk s' = disk s.
Proof.
  induction experiments as [|x rest IH]; intros s r s' Hrun.
  - rewrite forP_nil in Hrun. inversion Hrun; subst. split; reflexivity.
  - rewrite forP_cons in Hrun. unfold experiment_body at 1, info in Hrun.
    rewrite bind_run, emit_run in Hrun.
    set (s1 := State _ _) in Hrun.
    assert (executed s1 = executed s) as Hs1 by apply executed_log.
    destruct (forP (execute_unit ws tracker x) (Workspace.dataset ws) s1)
      as [r2 s2] eqn:Einner.
    destruct (sequences_loop ws tracker x _ _ _ _ Einner) as [H1 H2].
    cbn [flat_map]. rewrite run_units_app, <- Hs1, <- H1.
    destruct r2 as [[]|e].
    + destruct (IH s2 r s' Hrun) as [IH1 IH2].
      split; [exact IH1|]. now rewrite IH2, H2.
    + inversion Hrun; subst. split; [reflexivity|exact H2].
Qed.

(** The three loops together run the matrix in order and stop at the first
    call that raises. *)
Lemma evaluate_matrix_runs (ws : Workspace.t) (trackers : list Tracker.t) :
  forall s r s',
    evaluate_matrix ws trackers s = (r, s') ->
    (r, executed s') = run_units ws (matrix ws trackers) (executed s)
    /\ disk s' = disk s.
Proof.
  unfold evaluate_matrix, matrix.
  induction trackers as [|t rest IH]; intros s r s' Hrun.
  - rewrite forP_nil in Hrun. inversion Hrun; subst. split; reflexivity.
  - rewrite forP_cons in Hrun. unfold info at 1 in Hrun.
    rewrite bind_run, emit_run in Hrun.
    set (s1 := State _ _) in Hrun.
    assert (executed s1 = executed s) as Hs1 by apply executed_log.
    destruct (forP (experiment_body ws t) (Workspace.stack ws) s1)
      as [r2 s2] eqn:Einner.
    destruct (experiments_loop ws t _ _ _ _ Einner) as [H1 H2].
    cbn [flat_map]. rewrite run_units_app, <- Hs1, <- H1.
    destruct r2 as [[]|e].
    + destruct (IH s2 r s' Hrun) as [IH1 IH2].
      split; [exact IH1|]. now rewrite IH2, H2.
    + inversion Hrun; subst. split; [reflexivity|exact H2].
Qed.

(** *** [do_evaluate] *)

Lemma executed_loaded (config : Config) (known : list (string * Tracker.t))
    (s : state) :
  executed (loaded config known s) = executed s.
Proof.
  unfold loaded, executed. simpl. rewrite List.filter_app. simpl.
  apply app_nil_r.
Qed.

Lemma do_evaluate_loaded (w : World) (config : Config) (ws : Workspace.t)
    (known : list (string * Tracker.t)) (s : state) :
  open_workspace w (workspace config) = Ok ws ->
  load_trackers w (Workspace.registry ws ++ registry config) = Ok known ->
  do_evaluate w config s
  = match select_trackers known (trackers config) with
    | Raise (KeyError key) =>
        error "Tracker not found %s" [VStr (str_of_key key)]
              (loaded config known s)
    | Raise e => (Raise e, loaded config known s)
    | Ok selected =>
        match evaluate_matrix ws selected (loaded config known s) with
        | (Ok _, s') => info "Evaluation concluded successfuly" [] s'
        | (Raise e, s') => (Raise e, s')
        end
    end.
Proof.
  intros Hws Hknown.
  unfold do_evaluate, info, emit, lift, mbind, prog_bind. simpl.
  rewrite Hws. simpl. rewrite Hknown. simpl.
  unfold loaded. rewrite <- app_assoc. simpl.
  destruct (select_trackers known (trackers config)) as [selected|e];
    [reflexivity|].
  destruct e; reflexivity.
Qed.

(** C2, as the code has it.  When [execute] raises on a unit of the matrix,
    [do_evaluate] does not catch the exception: it leaves [do_evaluate] as
    the command's own failure, the units before it in the order (tracker,
    experiment, sequence) and the unit itself are the only ones on which
    [execute] was called, and no later sequence, experiment or tracker is
    run.  The run goes through the whole matrix, in that order, when no
    call of [execute] raises. *)
Theorem do_evaluate_stops_at_first_failure (w : World) (config : Config)
    (ws : Workspace.t) (known : list (string * Tracker.t))
    (selected : list Tracker.t) (s : state) :
  open_workspace w (workspace config) = Ok ws ->
  load_trackers w (Workspace.registry ws ++ registry config) = Ok known ->
  select_trackers known (trackers config) = Ok selected ->
  (forall before u after e,
     matrix ws selected = before ++ u :: after ->
     Forall (fun u => run_unit ws u = Ok tt) before ->
     run_unit ws u = Raise e ->
     fst (do_evaluate w config s) = Raise e
     /\ executed (snd (do_evaluate w config s))
        = executed s ++ map executed_event (before ++ [u]))
  /\ (Forall (fun u => run_unit ws u = Ok tt) (matrix ws selected) ->
      fst (do_evaluate w config s) = Ok tt
      /\ executed (snd (do_evaluate w config s))
         = executed s ++ map executed_event (matrix ws selected)).
Proof.
  intros Hws Hknown Hselected.
  rewrite (do_evaluate_loaded w config ws known s Hws Hknown), Hselected.
  destruct (evaluate_matrix ws selected (loaded config known s))
    as [r s'] eqn:Erun.
  destruct (evaluate_matrix_runs ws selected _ _ _ Erun) as [Hcalls _].
  rewrite executed_loaded in Hcalls.
  split.
  - intros before u after e Hsplit Hbefore Hu.
    rewrite Hsplit, (run_units_first_failure ws before after u e) in Hcalls
      by assumption.
    injection Hcalls as Hr Hs'. subst r. split; [reflexivity|exact Hs'].
  - intros Hall. rewrite run_units_all_return in Hcalls by assumption.
    injection Hcalls as Hr Hs'. subst r. split; [reflexivity|].
    unfold info. rewrite emit_run. cbn [snd]. rewrite executed_log.
    exact Hs'.
Qed.

Lemma do_evaluate_stops_at_first_failure_witness :
  fst (do_evaluate (world_of crashing) evaluate_t1 initial)
  = Raise (Failure "crash")
  /\ executed (snd (do_evaluate (world_of crashing) evaluate_t1 initial))
     = [Executed "t1" "e1" "s1"]
  /\ fst (do_evaluate (world_of steady) evaluate_t1 initial) = Ok tt
  /\ executed (snd (do_evaluate (world_of steady) evaluate_t1 initial))
     = [Executed "t1" "e1" "s1"; Executed "t1" "e1" "s2"].
Proof.
  destruct (do_evaluate_stops_at_first_failure
              (world_of crashing) evaluate_t1 (workspace_of crashing)
              [("t1", t1)] [t1] initial eq_refl eq_refl eq_refl)
    as [Hfails _].
  destruct (Hfails [] (t1, crashing, s1) [(t1, crashing, s2)]
                   (Failure "crash") eq_refl (List.Forall_nil _) eq_refl)
    as [Hraise Hcalls].
  destruct (do_evaluate_stops_at_first_failure
              (world_of steady) evaluate_t1 (workspace_of steady)
              [("t1", t1)] [t1] initial eq_refl eq_refl eq_refl)
    as [_ Hruns].
  assert (Forall (fun u => run_unit (workspace_of steady) u = Ok tt)
                 (matrix (workspace_of steady) [t1])) as Hsteady
    by (repeat constructor).
  destruct (Hruns Hsteady) as [Hreturn Hall].
  split; [exact Hraise|]. split; [exact Hcalls|].
  split; [exact Hreturn|exact Hall].
Defined.

(** The matrix run of C2 is abandoned at the first failure: with an
    experiment that raises on the first of two sequences, [do_evaluate]
    raises, and the second sequence is never run. *)
Lemma do_evaluate_failure_aborts :
  fst (do_evaluate (world_of crashing) evaluate_t1 initial)
  = Raise (Failure "crash")
  /\ events (snd (do_evaluate (world_of crashing) evaluate_t1 initial))
     = [Log INFO "Loaded workspace in '%s'" [VStr "."];
        Log INFO "Found data for %d trackers" [VInt 1];
        Log INFO " |= > Evaluating tracker %s" [VStr "t1"];
        Log INFO " |== > Running experiment %s" [VStr "e1"];
        Log INFO " |=== > Sequence %s" [VStr "s1"];
        Executed "t1" "e1" "s1"]
  /\ ~ In (Executed "t1" "e1" "s2")
          (events (snd (do_evaluate (world_of crashing) evaluate_t1 initial))).
Proof.
  split; [reflexivity|]. split; [reflexivity|].
  vm_compute. intuition discriminate.
Qed.

(** C10. When the evaluate command is given no trackers argument, so that
    [config.trackers] is [None], [do_evaluate] raises [AttributeError] at
    the split of the tracker list, once the workspace and the registry are
    loaded: no error is logged and no unit is evaluated. *)
Theorem do_evaluate_without_trackers (w : World) (config : Config)
    (ws : Workspace.t) (known : list (string * Tracker.t)) (s : state) :
  trackers config = None ->
  open_workspace w (workspace config) = Ok ws ->
  load_trackers w (Workspace.registry ws ++ registry config) = Ok known ->
  do_evaluate w config s
  = (Raise AttributeError,
     State (events s
            ++ [Log INFO "Loaded workspace in '%s'" [VStr (workspace config)];
                Log INFO "Found data for %d trackers"
                    [VInt (Z.of_nat (List.length known))]])
           (disk s)).
Proof.
  intros Hnone Hws Hknown.
  rewrite (do_evaluate_loaded w config ws known s Hws Hknown), Hnone.
  reflexivity.
Qed.

Lemma do_evaluate_without_trackers_witness :
  trackers evaluate_nothing = None
  /\ do_evaluate (world_of steady) evaluate_nothing initial
     = (Raise AttributeError,
        State [Log INFO "Loaded workspace in '%s'" [VStr "."];
               Log INFO "Found data for %d trackers" [VInt 1]] ∅).
Proof.
  split; [reflexivity|].
  exact (do_evaluate_without_trackers (world_of steady) evaluate_nothing
           (workspace_of steady) [("t1", t1)] initial
           eq_refl eq_refl eq_refl).
Defined.

(** *** [do_pack] *)

Lemma scanned_emit (s : state) (e : event) :
  scanned (State (events s ++ [e]) (disk s))
  = scanned s ++ (if is_scanned e then [e] else []).
Proof.
  unfold scanned. simpl. rewrite List.filter_app. simpl.
  destruct (is_scanned e); reflexivity.
Qed.

Lemma scan_post_nil (ws : Workspace.t) (tracker : Tracker.t)
    (acc : list entry * bool) (s : state) :
  scan_post ws tracker [] acc s acc s.
Proof.
  unfold scan_post. simpl. rewrite !app_nil_r, andb_true_r.
  repeat split; auto. intros u [].
Qed.

Lemma scan_post_app (ws : Workspace.t) (tracker : Tracker.t)
    (l1 l2 : list (Experiment.t * Sequence.t))
    (acc acc1 acc2 : list entry * bool) (s s1 s2 : state) :
  scan_post ws tracker l1 acc s acc1 s1 ->
  scan_post ws tracker l2 acc1 s1 acc2 s2 ->
  scan_post ws tracker (l1 ++ l2) acc s acc2 s2.
Proof.
  intros (Hf1 & Hc1 & Hd1 & Hs1 & Hm1 & Hr1) (Hf2 & Hc2 & Hd2 & Hs2 & Hm2 & Hr2).
  unfold scan_post.
  rewrite flat_map_app, forallb_app, map_app.
  repeat split.
  - now rewrite Hf2, Hf1, app_assoc.
  - now rewrite Hc2, Hc1, andb_assoc.
  - congruence.
  - now rewrite Hs2, Hs1, app_assoc.
  - auto.
  - intros u Hu Hinc. apply in_app_or in Hu as [Hu|Hu]; auto.
Qed.

(** A line of the log written before a stretch of the loop. *)
Lemma scan_post_after_log (ws : Workspace.t) (tracker : Tracker.t)
    (units : list (Experiment.t * Sequence.t))
    (acc acc' : list entry * bool) (s s' : state)
    (l : level) (format : string) (arguments : list value) :
  scan_post ws tracker units acc
            (State (events s ++ [Log l format arguments]) (disk s)) acc' s' ->
  scan_post ws tracker units acc s acc' s'.
Proof.
  intros (Hf & Hc & Hd & Hs & Hm & Hr). unfold scan_post.
  rewrite scanned_emit in Hs. simpl in Hs, Hd, Hm.
  rewrite app_nil_r in Hs.
  repeat split; auto.
  intros ev Hev. apply Hm. apply in_or_app. now left.
Qed.

(** One iteration of the scan loop, for a scan that returns. *)
Lemma scan_unit_post (ws : Workspace.t) (tracker : Tracker.t)
    (experiment : Experiment.t) (q : Sequence.t)
    (acc : list entry * bool) (s : state)
    (complete : bool) (files : list string) :
  scan_of ws tracker (experiment, q) = Ok (complete, files) ->
  exists acc' s',
    scan_unit ws tracker experiment acc q s = (Ok acc', s')
    /\ scan_post ws tracker [(experiment, q)] acc s acc' s'.
Proof.
  intros Hscan. destruct acc as [all_files can_finish].
  unfold scan_unit, error, emit, lift, mbind, mret, prog_bind, prog_ret.
  unfold scan_of in Hscan. simpl in Hscan. simpl. rewrite Hscan. simpl.
  unfold scan_post, entries_of, complete_of, scan_of. simpl.
  rewrite Hscan, app_nil_r, andb_true_r.
  destruct complete; simpl.
  - eexists _, _. split; [reflexivity|]. simpl.
    rewrite (scanned_emit s). simpl. rewrite andb_true_r.
    repeat split; auto.
    + intros ev Hev. apply in_or_app. now left.
    + intros u [<-|[]]. simpl. rewrite Hscan. discriminate.
  - eexists _, _. split; [reflexivity|]. simpl.
    rewrite andb_false_r.
    repeat split; auto.
    + unfold scanned. simpl. rewrite !List.filter_app. simpl.
      now rewrite app_nil_r.
    + intros ev Hev. apply in_or_app. left. apply in_or_app. now left.
    + intros u [<-|[]] _. apply in_or_app. right. now left.
Qed.

(** The loop over the sequences of one experiment, when the scans return. *)
Lemma scan_sequences (ws : Workspace.t) (tracker : Tracker.t)
    (experiment : Experiment.t) (sequences : list Sequence.t) :
  (forall q, In q sequences -> exists complete files,
      scan_of ws tracker (experiment, q) = Ok (complete, files)) ->
  forall acc s, exists acc' s',
    foldP (scan_unit ws tracker experiment) acc sequences s = (Ok acc', s')
    /\ scan_post ws tracker (map (fun q => (experiment, q)) sequences)
                 acc s acc' s'.
Proof.
  induction sequences as [|q rest IH]; intros Hreturn acc s.
  - exists acc, s. split; [reflexivity|apply scan_post_nil].
  - destruct (Hreturn q (or_introl eq_refl)) as (complete & files & Hscan).
    destruct (scan_unit_post ws tracker experiment q acc s complete files Hscan)
      as (acc1 & s1 & Hrun1 & Hpost1).
    destruct (IH (fun q' Hq' => Hreturn q' (or_intror Hq')) acc1 s1)
      as (acc2 & s2 & Hrun2 & Hpost2).
    exists acc2, s2. split.
    + rewrite foldP_cons, Hrun1. exact Hrun2.
    + exact (scan_post_app ws tracker [(experiment, q)] _ _ _ _ _ _ _
               Hpost1 Hpost2).
Qed.

(** The body of the loop over the experiments, and the loop itself. *)
Lemma scan_experiments (ws : Workspace.t) (tracker : Tracker.t)
    (experiments : list Experiment.t) :
  (forall x q, In x experiments -> In q (Workspace.dataset ws) ->
     exists complete files, scan_of ws tracker (x, q) = Ok (complete, files)) ->
  forall acc s, exists acc' s',
    foldP (fun acc experiment =>
             _ ← info " |= > Scanning experiment %s"
                      [VStr (Experiment.identifier experiment)];
             foldP (scan_unit ws tracker experiment) acc (Workspace.dataset ws))
          acc experiments s = (Ok acc', s')
    /\ scan_post ws tracker
         (flat_map (fun x => map (fun q => (x, q)) (Workspace.dataset ws))
                   experiments)
         acc s acc' s'.
Proof.
  induction experiments as [|x rest IH]; intros Hreturn acc s.
  - exists acc, s. split; [reflexivity|apply scan_post_nil].
  - rewrite foldP_cons. unfold info at 1. rewrite bind_run, emit_run.
    set (s0 := State _ _).
    destruct (scan_sequences ws tracker x (Workspace.dataset ws)
                (fun q Hq => Hreturn x q (or_introl eq_refl) Hq) acc s0)
      as (acc1 & s1 & Hrun1 & Hpost1).
    rewrite Hrun1.
    destruct (IH (fun x' q Hx' Hq => Hreturn x' q (or_intror Hx') Hq) acc1 s1)
      as (acc2 & s2 & Hrun2 & Hpost2).
    exists acc2, s2. split; [exact Hrun2|].
    cbn [flat_map]. eapply scan_post_app; [|exact Hpost2].
    eapply scan_post_after_log. exact Hpost1.
Qed.

Lemma scan_matrix_post (ws : Workspace.t) (tracker : Tracker.t) (s : state) :
  scans_return ws tracker ->
  exists acc' s',
    scan_matrix ws tracker s = (Ok acc', s')
    /\ scan_post ws tracker (pairs ws) ([], true) s acc' s'.
Proof.
  intros Hreturn. unfold scan_matrix, pairs.
  apply scan_experiments. intros x q Hx Hq. apply Hreturn.
  unfold pairs. apply in_flat_map. exists x. split; [exact Hx|].
  apply in_map_iff. now exists q.
Qed.

(** The path of an entry is asked of [os.path.join] with the entry itself
    as last component, which is refused. *)
Lemma copy_entry_raises (archive_name : string) (f : entry) (s : state) :
  copy_entry archive_name f s = (Raise TypeError, s).
Proof.
  destruct f as [[[f0 f1] f2] f3].
  unfold copy_entry, os_path_join, lift, mbind, prog_bind, result_bind.
  simpl.
  destruct (starts_with_sep f2); [reflexivity|].
  destruct ((f1 =? "")%string || ends_with_sep f1); reflexivity.
Qed.

Lemma create_archive_run (name : string) (s : state) :
  create_archive name s = (Ok tt, State (events s) (<[name := []]> (disk s))).
Proof. reflexivity. Qed.

Lemma build_archive_run (w : World) (tracker : Tracker.t)
    (all_files : list entry) (s : state) :
  let archive_name := Tracker.identifier tracker +:+ "_" +:+ now w in
  let collected :=
    Log INFO "Collected %d files, compressing to archive ..."
        [VInt (Z.of_nat (List.length all_files))] in
  build_archive w tracker all_files s
  = match all_files with
    | [] =>
        (Ok tt,
         State (events s
                ++ [collected;
                    Log INFO
                      "Result packaging successful, archive available in %s"
                      [VStr archive_name]])
               (<[archive_name := []]> (disk s)))
    | _ :: _ =>
        (Raise TypeError,
         State (events s ++ [collected]) (<[archive_name := []]> (disk s)))
    end.
Proof.
  unfold build_archive, info.
  rewrite bind_run, emit_run, bind_run, create_archive_run, bind_run.
  cbn [events disk]. destruct all_files as [|f rest].
  - rewrite forP_nil, emit_run. cbn [events disk].
    now rewrite <- app_assoc.
  - rewrite forP_cons, copy_entry_raises. reflexivity.
Qed.

Lemma do_pack_loaded (w : World) (config : Config) (ws : Workspace.t)
    (known : list (string * Tracker.t)) (s : state) :
  open_workspace w (workspace config) = Ok ws ->
  load_trackers w (Workspace.registry ws ++ registry config) = Ok known ->
  do_pack w config s
  = match lookup_tracker (tracker config) known with
    | Raise (KeyError key) =>
        error "Tracker not found %s" [VStr (str_of_key key)]
              (loaded config known s)
    | Raise e => (Raise e, loaded config known s)
    | Ok found =>
        match scan_matrix ws found (packaging config known found s) with
        | (Ok (all_files, can_finish), s') =>
            if negb can_finish
            then error "Unable to continue, experiments not complete" [] s'
            else build_archive w found all_files s'
        | (Raise e, s') => (Raise e, s')
        end
    end.
Proof.
  intros Hws Hknown.
  unfold do_pack, info, emit, lift, mbind, prog_bind. simpl.
  rewrite Hws. simpl. rewrite Hknown. simpl.
  unfold packaging, loaded. simpl. rewrite <- !app_assoc. simpl.
  destruct (lookup_tracker (tracker config) known) as [found|e].
  - destruct (scan_matrix ws found _) as [[[all_files can_finish]|e] s'];
      [destruct can_finish|]; reflexivity.
  - destruct e; reflexivity.
Qed.

Lemma scanned_packaging (config : Config) (known : list (string * Tracker.t))
    (found : Tracker.t) (s : state) :
  scanned (packaging config known found s) = scanned s.
Proof.
  unfold packaging, loaded, scanned. simpl. rewrite !List.filter_app. simpl.
  now rewrite !app_nil_r.
Qed.

(** Packaging with an incomplete pair: every pair is scanned, every
    incomplete one is reported, and the command returns after the line
    that says it cannot continue, the disk untouched. *)
Lemma do_pack_returns_on_incomplete (w : World) (config : Config)
    (ws : Workspace.t) (known : list (string * Tracker.t))
    (found : Tracker.t) (s : state) :
  open_workspace w (workspace config) = Ok ws ->
  load_trackers w (Workspace.registry ws ++ registry config) = Ok known ->
  lookup_tracker (tracker config) known = Ok found ->
  scans_return ws found ->
  (exists u, In u (pairs ws) /\ complete_of ws found u = false) ->
  exists s',
    do_pack w config s = (Ok tt, s')
    /\ disk s' = disk s
    /\ scanned s' = scanned s ++ map (scanned_event found) (pairs ws)
    /\ (forall u, In u (pairs ws) -> complete_of ws found u = false ->
          In (incomplete_report u) (events s'))
    /\ In (Log ERROR "Unable to continue, experiments not complete" [])
          (events s').
Proof.
  intros Hws Hknown Hfound Hreturn (u & Hu & Hincomplete).
  rewrite (do_pack_loaded w config ws known s Hws Hknown), Hfound.
  destruct (scan_matrix_post ws found (packaging config known found s) Hreturn)
    as ([all_files can_finish] & s1 & Hrun & Hpost).
  rewrite Hrun.
  destruct Hpost as (_ & Hfinish & Hdisk & Hscanned & _ & Hreports).
  simpl in Hfinish.
  assert (can_finish = false) as ->.
  { rewrite Hfinish. apply not_true_is_false. intros Hall.
    rewrite forallb_forall in Hall. specialize (Hall u Hu). congruence. }
  simpl. unfold error. rewrite emit_run.
  eexists. split; [reflexivity|]. cbn [events disk].
  rewrite scanned_packaging in Hscanned.
  split; [exact Hdisk|].
  split.
  { rewrite (scanned_emit s1). simpl. now rewrite app_nil_r. }
  split.
  - intros u' Hu' Hinc. apply in_or_app. left. now apply Hreports.
  - apply in_or_app. right. now left.
Qed.

(** C3, as the code has it.  When the tracker is found, every scan returns
    and some (experiment, sequence) pair is scanned as incomplete,
    [do_pack] raises nothing: it returns after logging that it is unable
    to continue, and leaves no archive, the disk being as it was.  Before
    that it has scanned every pair of the matrix, in order, and has logged
    one line for each incomplete pair. *)
Theorem do_pack_incomplete (w : World) (config : Config)
    (ws : Workspace.t) (known : list (string * Tracker.t))
    (found : Tracker.t) (s : state) :
  open_workspace w (workspace config) = Ok ws ->
  load_trackers w (Workspace.registry ws ++ registry config) = Ok known ->
  lookup_tracker (tracker config) known = Ok found ->
  scans_return ws found ->
  (exists u files, In u (pairs ws) /\ scan_of ws found u = Ok (false, files)) ->
  fst (do_pack w config s) = Ok tt
  /\ disk (snd (do_pack w config s)) = disk s
  /\ scanned (snd (do_pack w config s))
     = scanned s ++ map (scanned_event found) (pairs ws)
  /\ (forall u files,
        In u (pairs ws) -> scan_of ws found u = Ok (false, files) ->
        In (incomplete_report u) (events (snd (do_pack w config s))))
  /\ In (Log ERROR "Unable to continue, experiments not complete" [])
        (events (snd (do_pack w config s))).
Proof.
  intros Hws Hknown Hfound Hreturn (u & files & Hu & Hscan).
  assert (exists u, In u (pairs ws) /\ complete_of ws found u = false) as Hsome.
  { exists u. split; [exact Hu|]. unfold complete_of. now rewrite Hscan. }
  destruct (do_pack_returns_on_incomplete w config ws known found s
              Hws Hknown Hfound Hreturn Hsome)
    as (s' & -> & Hdisk & Hscanned & Hreports & Hunable).
  simpl. repeat split; auto.
  intros u' files' Hu' Hscan'. apply Hreports; [exact Hu'|].
  unfold complete_of. now rewrite Hscan'.
Qed.

Lemma do_pack_incomplete_witness :
  scan_of (workspace_of unfinished) t1 (unfinished, s1) = Ok (false, [])
  /\ fst (do_pack (world_of unfinished) pack_t1 initial) = Ok tt
  /\ disk (snd (do_pack (world_of unfinished) pack_t1 initial)) = ∅
  /\ scanned (snd (do_pack (world_of unfinished) pack_t1 initial))
     = [Scanned "t1" "e1" "s1"; Scanned "t1" "e1" "s2"]
  /\ In (incomplete_report (unfinished, s1))
        (events (snd (do_pack (world_of unfinished) pack_t1 initial))).
Proof.
  assert (scans_return (workspace_of unfinished) t1) as Hreturn.
  { intros u [<-|[<-|[]]]; eexists _, _; reflexivity. }
  assert (exists u files,
             In u (pairs (workspace_of unfinished))
             /\ scan_of (workspace_of unfinished) t1 u = Ok (false, files))
    as Hsome.
  { exists (unfinished, s1), []. split; [now left|reflexivity]. }
  destruct (do_pack_incomplete (world_of unfinished) pack_t1
              (workspace_of unfinished) [("t1", t1)] t1 initial
              eq_refl eq_refl eq_refl Hreturn Hsome)
    as (Hreturns & Hdisk & Hscanned & Hreports & _).
  split; [reflexivity|]. split; [exact Hreturns|].
  split; [exact Hdisk|]. split; [exact Hscanned|].
  apply (Hreports (unfinished, s1) []); [now left|reflexivity].
Defined.

(** Packaging with an incomplete pair fails with no exception: with an
    experiment whose scan of the first sequence is incomplete, [do_pack]
    returns as any call that went well. *)
Lemma do_pack_incomplete_no_exception :
  scan_of (workspace_of unfinished) t1 (unfinished, s1) = Ok (false, [])
  /\ do_pack (world_of unfinished) pack_t1 initial
     = (Ok tt,
        State [Log INFO "Loaded workspace in '%s'" [VStr "."];
               Log INFO "Found data for %d trackers" [VInt 1];
               Log INFO "Packaging results for tracker %s" [VStr "t1"];
               Log INFO " |= > Scanning experiment %s" [VStr "e1"];
               Scanned "t1" "e1" "s1";
               Log ERROR
                 " X= > Results are not complete for experiment %s, sequence %s"
                 [VStr "e1"; VStr "s1"];
               Scanned "t1" "e1" "s2";
               Log ERROR "Unable to continue, experiments not complete" []]
              ∅)
  /\ raised (fst (do_pack (world_of unfinished) pack_t1 initial)) = false.
Proof. repeat split. Qed.

(** Packaging complete results that hold a file: the archive is created and
    the copy of the first file raises. *)
Lemma do_pack_complete_raises (w : World) (config : Config)
    (ws : Workspace.t) (known : list (string * Tracker.t))
    (found : Tracker.t) (s : state) :
  open_workspace w (workspace config) = Ok ws ->
  load_trackers w (Workspace.registry ws ++ registry config) = Ok known ->
  lookup_tracker (tracker config) known = Ok found ->
  scans_return ws found ->
  forallb (complete_of ws found) (pairs ws) = true ->
  flat_map (entries_of ws found) (pairs ws) <> [] ->
  fst (do_pack w config s) = Raise TypeError
  /\ disk (snd (do_pack w config s))
     = <[Tracker.identifier found +:+ "_" +:+ now w := []]> (disk s).
Proof.
  intros Hws Hknown Hfound Hreturn Hcomplete Hfiles.
  rewrite (do_pack_loaded w config ws known s Hws Hknown), Hfound.
  destruct (scan_matrix_post ws found (packaging config known found s) Hreturn)
    as ([all_files can_finish] & s1 & Hrun & Hpost).
  rewrite Hrun.
  destruct Hpost as (Hall & Hfinish & Hdisk & _).
  simpl in Hfinish, Hall. rewrite Hcomplete in Hfinish. subst can_finish.
  simpl. rewrite build_archive_run.
  destruct all_files as [|f rest]; [now symmetry in Hall|].
  simpl. rewrite Hdisk. split; reflexivity.
Qed.

(** C5. Packaging the complete results of one experiment on two sequences,
    each with the result file [out.txt], stores no file in the archive:
    the internal path is asked of [os.path.join] with the whole entry in
    place of the file identifier, [TypeError] is raised at the first file,
    and the archive that was created stays empty on disk. *)
Theorem do_pack_complete_files :
  map (scan_of (workspace_of steady) t1) (pairs (workspace_of steady))
  = [Ok (true, ["out.txt"]); Ok (true, ["out.txt"])]
  /\ fst (do_pack (world_of steady) pack_t1 initial) = Raise TypeError
  /\ disk (snd (do_pack (world_of steady) pack_t1 initial))
     = {[ "t1_2020-01-01T00:00:00.000000" := [] ]}.
Proof. repeat split. Qed.

(** *** [main] *)

Lemma dispatch_run (w : World) (args : Config) (s : state) :
  dispatch w args s
  = (match action args with
     | Some name =>
         if String.eqb name "test" then do_test w args
         else if String.eqb name "workspace" then do_workspace w args
         else if String.eqb name "evaluate" then do_evaluate w args
         else if String.eqb name "analyze" then do_analysis w args
         else if String.eqb name "pack" then do_pack w args
         else emit HelpPrinted
     | None => emit HelpPrinted
     end)
      (if debug args then State (events s ++ [SetLevel DEBUG]) (disk s) else s).
Proof.
  unfold dispatch. rewrite bind_run. destruct (debug args); reflexivity.
Qed.

(** A command that reports one of its failures returns. *)
Lemma reported_failure_returns (w : World) (args : Config) (s : state) :
  reported_failure w args -> fst (dispatch w args s) = Ok tt.
Proof.
  intros Hfailure. rewrite dispatch_run.
  set (s0 := if debug args then _ else s). clearbody s0.
  destruct Hfailure
    as [known Haction Hknown Hmissing
       |Haction Hstack
       |ws known key Haction Hws Hknown Hselect
       |ws known key Haction Hws Hknown Hlookup
       |ws known found u files Haction Hws Hknown Hlookup Hreturn Hu Hscan];
    rewrite Haction; simpl.
  - unfold do_test. rewrite bind_run, lift_run, Hknown, Hmissing. reflexivity.
  - unfold do_workspace. rewrite Hstack. reflexivity.
  - rewrite (do_evaluate_loaded w args ws known s0 Hws Hknown), Hselect.
    reflexivity.
  - rewrite (do_pack_loaded w args ws known s0 Hws Hknown), Hlookup.
    reflexivity.
  - assert (exists u, In u (pairs ws) /\ complete_of ws found u = false)
      as Hsome.
    { exists u. split; [exact Hu|]. unfold complete_of. now rewrite Hscan. }
    destruct (do_pack_returns_on_incomplete w args ws known found s0
                Hws Hknown Hlookup Hreturn Hsome) as (s' & -> & _).
    reflexivity.
Qed.

(** C9, as the code has it.  Once the arguments are parsed, the process
    ends through [exit(0)], with status 0, whenever the command returns;
    the runs in which the command reports a failure (tracker not found,
    stack not found, incomplete results) are among them.  An exception
    other than [argparse.ArgumentError] raised in a command is not caught:
    the process ends on it, with status 1. *)
Theorem main_exit_status (w : World) (args : Config) (s : state) :
  (fst (dispatch w args s) = Ok tt ->
   fst (main w args s) = Exit 0 /\ exit_status (fst (main w args s)) = 0)
  /\ (reported_failure w args ->
      fst (main w args s) = Exit 0 /\ exit_status (fst (main w args s)) = 0)
  /\ (forall e, fst (dispatch w args s) = Raise e -> e <> ArgumentError ->
      fst (main w args s) = Uncaught e
      /\ exit_status (fst (main w args s)) = 1).
Proof.
  assert (fst (dispatch w args s) = Ok tt ->
          fst (main w args s) = Exit 0
          /\ exit_status (fst (main w args s)) = 0) as Hreturns.
  { unfold main. destruct (dispatch w args s) as [[[]|e] s']; simpl;
      [split; reflexivity|discriminate]. }
  split; [exact Hreturns|]. split.
  - intros Hfailure. apply Hreturns. now apply reported_failure_returns.
  - intros e He Hne. unfold main.
    destruct (dispatch w args s) as [[[]|e'] s']; simpl in *; [discriminate|].
    injection He as ->. destruct e; try (split; reflexivity).
    now destruct Hne.
Qed.

Lemma main_exit_status_witness :
  reported_failure (world_of unfinished) pack_t1
  /\ reported_failure (world_of steady) test_t2
  /\ reported_failure (world_of steady) workspace_vot2020
  /\ fst (main (world_of unfinished) pack_t1 initial) = Exit 0
  /\ fst (main (world_of steady) test_t2 initial) = Exit 0
  /\ fst (main (world_of steady) workspace_vot2020 initial) = Exit 0
  /\ fst (main (world_of steady) evaluate_t1 initial) = Exit 0
  /\ fst (main (world_of crashing) evaluate_t1 initial)
     = Uncaught (Failure "crash")
  /\ exit_status (fst (main (world_of crashing) evaluate_t1 initial)) = 1.
Proof.
  assert (reported_failure (world_of unfinished) pack_t1) as Hpack.
  { apply (pack_incomplete_results (world_of unfinished) pack_t1
             (workspace_of unfinished) [("t1", t1)] t1 (unfinished, s1) []);
      try reflexivity; [|now left].
    intros u [<-|[<-|[]]]; eexists _, _; reflexivity. }
  assert (reported_failure (world_of steady) test_t2) as Htest.
  { now apply (test_tracker_not_found (world_of steady) test_t2 [("t1", t1)]). }
  assert (reported_failure (world_of steady) workspace_vot2020) as Hstack.
  { now apply workspace_stack_not_found. }
  split; [exact Hpack|]. split; [exact Htest|]. split; [exact Hstack|].
  split.
  { exact (proj1 (proj1 (proj2 (main_exit_status (world_of unfinished) pack_t1
                                  initial)) Hpack)). }
  split.
  { exact (proj1 (proj1 (proj2 (main_exit_status (world_of steady) test_t2
                                  initial)) Htest)). }
  split.
  { exact (proj1 (proj1 (proj2 (main_exit_status (world_of steady)
                                  workspace_vot2020 initial)) Hstack)). }
  split.
  { exact (proj1 (proj1 (main_exit_status (world_of steady) evaluate_t1
                           initial) eq_refl)). }
  apply (proj2 (proj2 (main_exit_status (world_of crashing) evaluate_t1
                         initial))); [reflexivity|discriminate].
Defined.

(** The exit status of C9 is not always 0: [vot evaluate], with no
    trackers argument, parses, and the process ends on the uncaught
    [AttributeError] with status 1. *)
Lemma main_evaluate_nothing_status :
  fst (main (world_of steady) evaluate_nothing initial)
  = Uncaught AttributeError
  /\ exit_status (fst (main (world_of steady) evaluate_nothing initial)) <> 0.
Proof. split; [reflexivity|]. vm_compute. discriminate. Qed.

End MainFacts.

(** * Further properties *)

(** ** [merge_repeats]: the spans and the way back *)

Module SpanFacts.
Import Py Document PyFacts.

Section spans.
Context {A : Type} (eqb : A -> A -> bool).

Lemma spans_merge_loop (objects : list A) :
  forall repeats previous count,
    list_sum (map snd (merge_loop eqb repeats previous count objects))
    = (list_sum (map snd repeats) + count + length objects)%nat.
Proof.
  induction objects as [|o rest IH]; intros repeats previous count; simpl.
  - rewrite map_app, list_sum_app. simpl. lia.
  - destruct (eqb o previous); rewrite IH; [lia|].
    rewrite map_app, list_sum_app. simpl. lia.
Qed.

Lemma pairs_merge_loop (objects : list A) :
  forall repeats previous count,
    (length (merge_loop eqb repeats previous count objects)
     <= length repeats + 1 + length objects)%nat.
Proof.
  induction objects as [|o rest IH]; intros repeats previous count; simpl.
  - rewrite length_app. simpl. lia.
  - destruct (eqb o previous).
    + specialize (IH repeats previous (count + 1)%nat). lia.
    + specialize (IH (repeats ++ [(previous, count)]) o 1%nat).
      rewrite length_app in IH. simpl in IH. lia.
Qed.

Lemma positive_merge_loop (objects : list A) :
  forall repeats previous count,
    Forall (fun vc => (0 < snd vc)%nat) repeats -> (0 < count)%nat ->
    Forall (fun vc => (0 < snd vc)%nat)
           (merge_loop eqb repeats previous count objects).
Proof.
  induction objects as [|o rest IH]; intros repeats previous count Hr Hc; simpl.
  - apply Forall_app. split; [exact Hr|]. constructor; [exact Hc|constructor].
  - destruct (eqb o previous).
    + apply IH; [exact Hr|lia].
    + apply IH; [|lia]. apply Forall_app. split; [exact Hr|].
      constructor; [exact Hc|constructor].
Qed.

(** X1. Whatever the equality test of the cells is, the run lengths that
    [merge_repeats] returns are all positive and add up to the length of
    the input, and there are no more pairs than cells: the spanning cells
    of a header row cover its columns exactly. *)
Theorem merge_repeats_spans (objects : list A) :
  list_sum (map snd (merge_repeats eqb objects)) = length objects
  /\ Forall (fun vc => (0 < snd vc)%nat) (merge_repeats eqb objects)
  /\ (length (merge_repeats eqb objects) <= length objects)%nat.
Proof.
  destruct objects as [|first rest]; simpl.
  - split; [reflexivity|]. split; [constructor|lia].
  - rewrite spans_merge_loop. simpl. split; [lia|]. split.
    + apply positive_merge_loop; [constructor|lia].
    + pose proof (pairs_merge_loop rest [] first 1%nat) as H. simpl in H. lia.
Qed.

Hypothesis eqb_eq : forall x y, eqb x y = true <-> x = y.

Lemma eqb_refl (x : A) : eqb x x = true.
Proof. now apply eqb_eq. Qed.

Lemma eqb_neq (x y : A) : x <> y -> eqb x y = false.
Proof.
  intros Hne. destruct (eqb x y) eqn:E; [|reflexivity].
  apply eqb_eq in E. contradiction.
Qed.

(** A run of the value at hand only adds to its count. *)
Lemma merge_loop_run (k : nat) (objects : list A) :
  forall repeats previous count,
    merge_loop eqb repeats previous count (replicate k previous ++ objects)
    = merge_loop eqb repeats previous (count + k)%nat objects.
Proof.
  induction k as [|k IH]; intros repeats previous count; simpl.
  - now rewrite Nat.add_0_r.
  - rewrite eqb_refl, IH. f_equal. lia.
Qed.

Lemma merge_loop_expand (r : list (A * nat)) :
  forall repeats previous count,
    adjacent_distinct ((previous, count) :: r) ->
    Forall (fun vc => (0 < snd vc)%nat) r ->
    merge_loop eqb repeats previous count (expand r)
    = repeats ++ (previous, count) :: r.
Proof.
  induction r as [|[q n] r IH]; intros repeats previous count Hadj Hpos.
  - reflexivity.
  - destruct Hadj as [Hpq Hadj]. simpl in Hpq.
    inversion Hpos as [|? ? Hn Hpos']; subst. simpl in Hn.
    destruct n as [|n]; [lia|].
    change (expand ((q, S n) :: r)) with (q :: replicate n q ++ expand r).
    cbn [merge_loop]. rewrite eqb_neq by congruence.
    rewrite merge_loop_run, IH by assumption.
    rewrite <- app_assoc. reflexivity.
Qed.

(** X2. [merge_repeats] undoes the expansion of any run-length list it
    could have returned: when no two adjacent pairs have the same value
    and every count is positive, merging the expanded sequence gives the
    pairs back. *)
Theorem merge_repeats_expand (r : list (A * nat)) :
  adjacent_distinct r ->
  Forall (fun vc => (0 < snd vc)%nat) r ->
  merge_repeats eqb (expand r) = r.
Proof.
  destruct r as [|[p c] r]; intros Hadj Hpos; [reflexivity|].
  inversion Hpos as [|? ? Hc Hpos']; subst. simpl in Hc.
  destruct c as [|c]; [lia|].
  change (expand ((p, S c) :: r)) with (p :: replicate c p ++ expand r).
  unfold merge_repeats.
  rewrite merge_loop_run, merge_loop_expand; [reflexivity| |assumption].
  destruct Hadj as [Hfirst Hrest]. split; assumption.
Qed.

End spans.

Lemma merge_repeats_expand_witness :
  merge_repeats value_eqb
    (expand [(VStr "E1", 2%nat); (VStr "E2", 1%nat); (VStr "E1", 3%nat)])
  = [(VStr "E1", 2%nat); (VStr "E2", 1%nat); (VStr "E1", 3%nat)].
Proof.
  apply (merge_repeats_expand value_eqb value_eqb_eq).
  - simpl. repeat split; discriminate.
  - repeat constructor.
Defined.

End SpanFacts.

(** ** The tables, the plots and the export of a result mapping *)

Module TableFacts.
Import Py Document DocumentSpec Scenario Cases PyFacts DocumentFacts.

(** A loop whose body, at every item, either leaves the locals as they are
    or raises [e], returns the locals when every item passes and raises [e]
    otherwise. *)
Lemma foldM_gate {A S : Type} (f : S -> A -> result S) (pass : A -> bool)
    (e : exn) (l : list A) :
  (forall x, In x l -> forall s, f s x = if pass x then Ok s else Raise e) ->
  forall s, foldM f s l = if forallb pass l then Ok s else Raise e.
Proof.
  induction l as [|x rest IH]; intros Hstep s; [reflexivity|].
  simpl. rewrite (Hstep x (or_introl eq_refl) s).
  destruct (pass x); simpl; [|reflexivity].
  apply IH. intros y Hy. apply Hstep. now right.
Qed.

Lemma is_description_cases (v : value) :
  is_description v = true ->
  is_none v = true \/ isinstance_Measure v = true \/ isinstance_Curve v = true.
Proof.
  unfold is_description. rewrite !orb_true_iff. tauto.
Qed.

Lemma unpack2_tracker (v : value) :
  is_tracker v = true -> unpack2 v = Raise TypeError.
Proof. destruct v; simpl; intros H; try discriminate; reflexivity. Qed.

Lemma analysis_step_gate (experiment : value) (entry : value * value) :
  well_formed_analysis entry = true ->
  forall acc,
    analysis_step experiment acc entry
    = if blank_analysis entry then Ok acc else Raise TypeError.
Proof.
  destruct entry as [analysis aresults]. simpl.
  destruct analysis as [| | | | | | | | | |name descriptions]; try discriminate.
  destruct aresults as [| | | | |tresults| | | | |]; try discriminate.
  rewrite andb_true_iff. intros [Hdescriptions Htrackers] [h data].
  unfold analysis_step. simpl.
  destruct descriptions as [|d others].
  - simpl. destruct tresults as [|[t tresult] more]; [reflexivity|].
    simpl in Htrackers. apply andb_true_iff in Htrackers as [Ht _].
    simpl. unfold row_step. rewrite (unpack2_tracker t Ht). reflexivity.
  - simpl in Hdescriptions. apply andb_true_iff in Hdescriptions as [Hd _].
    simpl. unfold header_step.
    rewrite (unpack2_description d (is_description_cases d Hd)). reflexivity.
Qed.

Lemma experiment_step_gate (analyses : list (value * value))
    (experiment : value) :
  forallb well_formed_analysis analyses = true ->
  forall acc,
    experiment_step acc (experiment, VDict analyses)
    = if forallb blank_analysis analyses then Ok acc else Raise TypeError.
Proof.
  intros Hwf acc. unfold experiment_step. simpl.
  apply foldM_gate. intros entry Hentry acc'.
  apply analysis_step_gate.
  rewrite forallb_forall in Hwf. now apply Hwf.
Qed.

(** X4. On a result mapping of the shape experiment -> analysis -> tracker
    -> values, [extract_measures_table] returns only when no analysis
    describes an output or holds the result of a tracker, and the table it
    returns then has no column and no row; on every other such mapping it
    raises [TypeError]. *)
Theorem extract_measures_table_well_formed (results : value) :
  well_formed results = true ->
  extract_measures_table results
  = if blank results then Ok empty_table else Raise TypeError.
Proof.
  destruct results as [| | | | |experiments| | | | |]; try discriminate.
  intros Hwf. unfold extract_measures_table. simpl in *.
  apply (foldM_gate experiment_step
           (fun er => match snd er with
                      | VDict analyses => forallb blank_analysis analyses
                      | _ => false
                      end)).
  intros [experiment eresults] Hin acc.
  rewrite forallb_forall in Hwf. specialize (Hwf _ Hin). simpl in Hwf.
  destruct eresults as [| | | | |analyses| | | | |]; try discriminate.
  now apply experiment_step_gate.
Qed.

Lemma extract_measures_table_well_formed_witness :
  well_formed one_measure = true
  /\ well_formed no_output = true
  /\ extract_measures_table one_measure = Raise TypeError
  /\ extract_measures_table no_output = Ok empty_table.
Proof.
  split; [reflexivity|]. split; [reflexivity|]. split.
  - exact (extract_measures_table_well_formed one_measure eq_refl).
  - exact (extract_measures_table_well_formed no_output eq_refl).
Defined.

Lemma plots_analysis_step_gate (entry : value * value) :
  well_formed_analysis entry = true ->
  forall acc,
    plots_analysis_step acc entry
    = if undescribed_analysis entry then Ok acc else Raise TypeError.
Proof.
  destruct entry as [analysis aresults]. simpl.
  destruct analysis as [| | | | | | | | | |name descriptions]; try discriminate.
  destruct aresults as [| | | | |tresults| | | | |]; try discriminate.
  rewrite andb_true_iff. intros [Hdescriptions _] acc.
  unfold plots_analysis_step, undescribed_analysis. simpl.
  destruct descriptions as [|d others]; [reflexivity|].
  simpl in Hdescriptions. apply andb_true_iff in Hdescriptions as [Hd _].
  simpl. unfold collect_step.
  rewrite (unpack2_description d (is_description_cases d Hd)). reflexivity.
Qed.

(** X5. On a result mapping of the shape experiment -> analysis -> tracker
    -> values, [extract_plots] returns, with no plot, only when no
    analysis describes an output; as soon as one analysis describes an
    output it raises [TypeError], whatever the number of its Measures. *)
Theorem extract_plots_well_formed (results : value) :
  well_formed results = true ->
  extract_plots results
  = if undescribed results then Ok [] else Raise TypeError.
Proof.
  destruct results as [| | | | |experiments| | | | |]; try discriminate.
  intros Hwf. unfold extract_plots. simpl in *.
  apply (foldM_gate plots_experiment_step
           (fun er => match snd er with
                      | VDict analyses => forallb undescribed_analysis analyses
                      | _ => false
                      end)).
  intros [experiment eresults] Hin acc.
  rewrite forallb_forall in Hwf. specialize (Hwf _ Hin). simpl in Hwf.
  destruct eresults as [| | | | |analyses| | | | |]; try discriminate.
  unfold plots_experiment_step. simpl.
  apply foldM_gate. intros entry Hentry acc'.
  apply plots_analysis_step_gate.
  rewrite forallb_forall in Hwf. now apply Hwf.
Qed.

Lemma extract_plots_well_formed_witness :
  well_formed one_measure = true
  /\ extract_plots one_measure = Raise TypeError
  /\ extract_plots no_output = Ok [].
Proof.
  split; [reflexivity|]. split.
  - exact (extract_plots_well_formed one_measure eq_refl).
  - exact (extract_plots_well_formed no_output eq_refl).
Defined.

End TableFacts.

Module HeaderFacts.
Import Py Document DocumentSpec Scenario Cases PyFacts.

Lemma header_step_aligned (experiment analysis item : value)
    (h h' : header) (data : rows) :
  aligned (h, data) -> header_step experiment analysis h item = Ok h' ->
  aligned (h', data).
Proof.
  destruct h as [[h0 h1] h2]. intros (H0 & H1 & Hm & Hkeys). unfold header_step.
  destruct (unpack2 item) as [[i description]|]; simpl; [|discriminate].
  destruct (is_none description).
  { intros H. injection H as <-. repeat split; assumption. }
  destruct (isinstance_Measure description) eqn:E.
  - intros H. injection H as <-. simpl. rewrite !length_app. simpl.
    repeat split; try lia; [|assumption].
    apply Forall_app. split; [assumption|]. now constructor.
  - intros H. injection H as <-. repeat split; assumption.
Qed.

Lemma row_append_keys (data : rows) (tracker x : value) :
  forall data', row_append data tracker x = Ok data' ->
  map fst data' = map fst data.
Proof.
  induction data as [|[k row] rest IH]; intros data'; simpl; [discriminate|].
  destruct (value_eqb k tracker).
  - intros H. injection H as <-. reflexivity.
  - destruct (row_append rest tracker x) as [rest'|]; simpl; [|discriminate].
    intros H. injection H as <-. simpl. f_equal. now apply IH.
Qed.

Lemma cell_step_keys (aresults tracker : value) (data data' : rows)
    (p : Z * value) :
  cell_step aresults tracker data p = Ok data' ->
  map fst data' = map fst data.
Proof.
  destruct p as [i description]. unfold cell_step.
  destruct (is_none description); [intros H; now injection H as <-|].
  destruct (isinstance_Measure description); [|intros H; now injection H as <-].
  destruct (getitem aresults tracker) as [tresults|]; simpl; [|discriminate].
  destruct (getitem tresults (VInt i)) as [x|]; simpl; [|discriminate].
  apply row_append_keys.
Qed.

Lemma lookup_entry_none {B : Type} (key : value) (entries : list (value * B)) :
  lookup_entry key entries = None -> ~ In key (map fst entries).
Proof.
  induction entries as [|[k v] rest IH]; simpl; [tauto|].
  destruct (value_eqb k key) eqn:E; [discriminate|].
  intros Hnone [Hk|Hin]; [|now apply IH].
  subst k. assert (value_eqb key key = true) by now apply value_eqb_eq.
  congruence.
Qed.

Lemma row_step_keys (aresults descriptions item : value) (data data' : rows) :
  NoDup (map fst data) ->
  row_step aresults descriptions data item = Ok data' ->
  NoDup (map fst data').
Proof.
  intros Hkeys. unfold row_step.
  destruct (unpack2 item) as [[tracker tresult]|]; simpl; [|discriminate].
  unfold contains. destruct (hashable tracker); simpl; [|discriminate].
  destruct (iterate descriptions) as [ds|]; simpl;
    [|destruct (lookup_entry tracker data); discriminate].
  set (start := if match lookup_entry tracker data with
                   | Some _ => true
                   | None => false
                   end then data else data ++ [(tracker, [])]).
  assert (NoDup (map fst start)) as Hstart.
  { unfold start. destruct (lookup_entry tracker data) eqn:E; [exact Hkeys|].
    rewrite map_app. simpl. apply NoDup_app. split; [exact Hkeys|].
    split; [|apply NoDup_singleton].
    intros k Hk Hin. apply list_elem_of_singleton in Hin. subst k.
    apply list_elem_of_In in Hk.
    now apply (lookup_entry_none tracker data E). }
  intros Hrun.
  refine (foldM_invariant (fun d => NoDup (map fst d))
            (cell_step aresults tracker) _ (enumerate ds) start data'
            Hstart Hrun).
  intros d p d' Hd Hstep. now rewrite (cell_step_keys _ _ _ _ _ Hstep).
Qed.

Lemma analysis_step_aligned (experiment : value) (acc acc' : header * rows)
    (entry : value * value) :
  aligned acc -> analysis_step experiment acc entry = Ok acc' -> aligned acc'.
Proof.
  destruct entry as [analysis aresults]. destruct acc as [h data].
  intros Hacc. unfold analysis_step.
  destruct (describe analysis) as [descriptions|]; simpl; [|discriminate].
  destruct (iterate descriptions) as [ds|]; simpl; [|discriminate].
  destruct (foldM (header_step experiment analysis) h ds) as [h'|] eqn:Eh;
    simpl; [|discriminate].
  destruct (iterate aresults) as [ts|]; simpl; [|discriminate].
  destruct (foldM (row_step aresults descriptions) data ts) as [data'|] eqn:Ed;
    simpl; [|discriminate].
  intros H. injection H as <-.
  assert (aligned (h', data)) as Hh.
  { refine (foldM_invariant (fun x => aligned (x, data))
              (header_step experiment analysis) _ ds h h' Hacc Eh).
    intros x item x' Hx Hstep.
    exact (header_step_aligned experiment analysis item x x' data Hx Hstep). }
  assert (NoDup (map fst data')) as Hd.
  { refine (foldM_invariant (fun d => NoDup (map fst d))
              (row_step aresults descriptions) _ ts data data' _ Ed).
    - intros d item d' Hdd Hstep.
      exact (row_step_keys aresults descriptions item d d' Hdd Hstep).
    - destruct h as [[h0 h1] h2]. now destruct Hacc as (_ & _ & _ & Hkeys). }
  destruct h' as [[h0 h1] h2]. destruct Hh as (H0 & H1 & Hm & _).
  repeat split; assumption.
Qed.

(** X3. Whenever [extract_measures_table] returns, the three levels of the
    header have the same length, every cell of the third level is a
    Measure, and the rows are keyed by pairwise distinct trackers. *)
Theorem extract_measures_table_aligned (results : value)
    (h0 h1 h2 : list value) (data : rows) :
  extract_measures_table results = Ok ((h0, h1, h2), data) ->
  length h0 = length h2
  /\ length h1 = length h2
  /\ Forall (fun d => isinstance_Measure d = true) h2
  /\ NoDup (map fst data).
Proof.
  unfold extract_measures_table.
  destruct (items results) as [experiments|]; simpl; [|discriminate].
  intros Hrun.
  refine (foldM_invariant aligned experiment_step _ experiments
            (([], [], []), []) ((h0, h1, h2), data) _ Hrun).
  - intros acc [experiment eresults] acc' Hacc. unfold experiment_step.
    destruct (items eresults) as [analyses|]; simpl; [|discriminate].
    intros Hstep.
    refine (foldM_invariant aligned (analysis_step experiment) _ analyses
              acc acc' Hacc Hstep).
    intros a entry a' Ha. now apply analysis_step_aligned.
  - simpl. repeat split; constructor.
Qed.

Lemma extract_measures_table_aligned_witness :
  extract_measures_table paired_results
  = Ok (([baseline], [paired], [VMeasure "A"]), [])
  /\ length [baseline] = length [VMeasure "A"]
  /\ Forall (fun d => isinstance_Measure d = true) [VMeasure "A"].
Proof.
  assert (extract_measures_table paired_results
          = Ok (([baseline], [paired], [VMeasure "A"]), [])) as Hrun
    by reflexivity.
  destruct (extract_measures_table_aligned _ _ _ _ _ Hrun) as (H0 & _ & Hm & _).
  split; [exact Hrun|]. split; [exact H0|exact Hm].
Defined.

End HeaderFacts.

(** ** [EnvDefault] *)

Module EnvDefaultFacts.
Import Py Main EnvDefault.

Lemma split_nonempty (sep : ascii) (s : string) : split sep s <> [].
Proof.
  destruct s as [|c rest]; simpl; [discriminate|].
  destruct (Ascii.eqb c sep); [discriminate|].
  destruct (split sep rest); discriminate.
Qed.

Lemma join_cons (sep : ascii) (part : string) (rest : list string) :
  rest <> [] -> join sep (part :: rest) = part +:+ String sep (join sep rest).
Proof. destruct rest; [contradiction|reflexivity]. Qed.

Lemma join_split (sep : ascii) (s : string) : join sep (split sep s) = s.
Proof.
  induction s as [|c rest IH]; [reflexivity|]. simpl.
  destruct (Ascii.eqb c sep) eqn:E.
  - apply Ascii.eqb_eq in E. subst c.
    rewrite join_cons by apply split_nonempty. simpl. now rewrite IH.
  - pose proof (split_nonempty sep rest) as Hne.
    destruct (split sep rest) as [|part parts]; [contradiction|].
    destruct parts as [|next parts].
    + simpl in *. now rewrite IH.
    + rewrite join_cons by discriminate.
      rewrite join_cons in IH by discriminate.
      rewrite <- IH. reflexivity.
Qed.

Lemma length_split (sep : ascii) (s : string) :
  length (split sep s) = S (occurrences sep s).
Proof.
  induction s as [|c rest IH]; [reflexivity|]. simpl.
  destruct (Ascii.eqb c sep); simpl; [now rewrite IH|].
  pose proof (split_nonempty sep rest) as Hne.
  destruct (split sep rest) as [|part parts]; [contradiction|].
  simpl in *. exact IH.
Qed.

Lemma split_parts_clean (sep : ascii) (s : string) :
  Forall (fun part => occurrences sep part = 0%nat) (split sep s).
Proof.
  induction s as [|c rest IH]; simpl; [repeat constructor|].
  destruct (Ascii.eqb c sep) eqn:E; [constructor; [reflexivity|exact IH]|].
  destruct (split sep rest) as [|part parts]; [repeat constructor; simpl; now rewrite E|].
  inversion IH as [|? ? Hpart Hparts]; subst.
  constructor; [|exact Hparts]. simpl. now rewrite E, Hpart.
Qed.

(** X8. An [EnvDefault] argument declared with a default that is not
    empty never reads its environment variable: whatever the environment
    holds, [__init__] hands the same default and the same [required] to
    the base class.  This is the case of [--registry], declared with the
    default ["."]. *)
Theorem init_ignores_environment (environ : list (string * string))
    (envvar : string) (required : bool) (default : setting)
    (separator : option ascii) :
  truthy default = true ->
  init environ envvar required default separator
  = init [] envvar required default separator.
Proof.
  intros Htruthy. unfold init. rewrite Htruthy. reflexivity.
Qed.

Lemma init_ignores_environment_witness :
  truthy (Text ".") = true
  /\ init [("VOT_REGISTRY", "/opt/trackers:/home/trackers")] "VOT_REGISTRY"
          false (Text ".") (Some ":"%char)
     = Ok (Parts ["."], false).
Proof.
  split; [reflexivity|].
  rewrite (init_ignores_environment _ "VOT_REGISTRY" false (Text ".")
             (Some ":"%char) eq_refl).
  reflexivity.
Defined.

(** X9. With a separator, [__init__] either raises [AttributeError], the
    default being [None] or already a list when it is split, or turns
    [required] off and hands over a list that is not empty; it raises in
    particular when no default is given and the environment variable is
    not set. *)
Theorem init_with_separator (environ : list (string * string))
    (envvar : string) (required : bool) (default : setting) (sep : ascii) :
  (init environ envvar required default (Some sep) = Raise AttributeError
   \/ exists parts,
        parts <> []
        /\ init environ envvar required default (Some sep)
           = Ok (Parts parts, false))
  /\ (default = Unset -> getenv envvar environ = None ->
      init environ envvar required default (Some sep) = Raise AttributeError).
Proof.
  split.
  - unfold init.
    set (effective := if negb (truthy default) && negb (envvar =? "")%string
                      then _ else default).
    destruct effective as [|s|l]; simpl; [now left| |now left].
    right. exists (split sep s). split; [apply split_nonempty|].
    pose proof (split_nonempty sep s) as Hne.
    destruct (split sep s); [contradiction|].
    simpl. destruct required; reflexivity.
  - intros -> Hunset. unfold init. rewrite Hunset. simpl.
    destruct (negb (envvar =? "")%string); reflexivity.
Qed.

Lemma init_with_separator_witness :
  init [] "VOT_REGISTRY" true Unset (Some ":"%char) = Raise AttributeError
  /\ init [("VOT_REGISTRY", "a:b")] "VOT_REGISTRY" true Unset (Some ":"%char)
     = Ok (Parts ["a"; "b"], false).
Proof.
  split.
  - exact (proj2 (init_with_separator [] "VOT_REGISTRY" true Unset ":"%char)
             eq_refl eq_refl).
  - destruct (proj1 (init_with_separator [("VOT_REGISTRY", "a:b")]
                       "VOT_REGISTRY" true Unset ":"%char))
      as [Hraise|(parts & _ & Hrun)]; [discriminate Hraise|].
    reflexivity.
Defined.

(** X10. [__call__] with a separator stores the parts of the value given
    on the command line: joined by the separator they give the value back,
    none of them holds the separator, and there is one more part than the
    value has separators, so at least one. *)
Theorem call_splits (sep : ascii) (values : string) :
  exists parts,
    call (Some sep) values = Parts parts
    /\ join sep parts = values
    /\ Forall (fun part => occurrences sep part = 0%nat) parts
    /\ length parts = S (occurrences sep values).
Proof.
  exists (split sep values). split; [reflexivity|].
  split; [apply join_split|]. split; [apply split_parts_clean|].
  apply length_split.
Qed.

End EnvDefaultFacts.

(** ** More on the command line driver *)

Module DriverFacts.
Import Py Main MainSpec DriverSpec Scenario Cases PyFacts MainFacts.
Import EnvDefault EnvDefaultFacts.

(** *** The registry *)

Lemma lookup_tracker_found (key : string) (known : list (string * Tracker.t)) :
  has_key key known = true -> exists found, lookup_tracker key known = Ok found.
Proof.
  induction known as [|[k t] rest IH]; simpl; [discriminate|].
  destruct (String.eqb k key); simpl; [now exists t|exact IH].
Qed.

Lemma lookup_tracker_missing (key : string)
    (known : list (string * Tracker.t)) :
  has_key key known = false ->
  lookup_tracker key known = Raise (KeyError (VStr key)).
Proof.
  induction known as [|[k t] rest IH]; simpl; [reflexivity|].
  destruct (String.eqb k key); simpl; [discriminate|exact IH].
Qed.

Lemma lookup_tracker_has_key (key : string)
    (known : list (string * Tracker.t)) (found : Tracker.t) :
  lookup_tracker key known = Ok found -> has_key key known = true.
Proof.
  intros Hfound. destruct (has_key key known) eqn:E; [reflexivity|].
  rewrite (lookup_tracker_missing key known E) in Hfound. discriminate.
Qed.

Lemma traverse_length {A B : Type} (f : A -> result B) (l : list A) :
  forall ys, traverse f l = Ok ys -> length ys = length l.
Proof.
  induction l as [|x rest IH]; intros ys; simpl.
  - intros H. now injection H as <-.
  - destruct (f x) as [y|]; simpl; [|discriminate].
    destruct (traverse f rest) as [ys'|]; simpl; [|discriminate].
    intros H. injection H as <-. simpl. f_equal. now apply IH.
Qed.

(** X11. The list of trackers that [do_evaluate] selects from a trackers
    argument has one tracker more than the argument has commas: it is
    never empty, and an empty argument or an empty part between two commas
    is looked up as the tracker of empty name. *)
Theorem select_trackers_count (known : list (string * Tracker.t))
    (names : string) (selected : list Tracker.t) :
  select_trackers known (Some names) = Ok selected ->
  length selected = S (occurrences "," names) /\ selected <> [].
Proof.
  unfold select_trackers. intros Hselected.
  apply traverse_length in Hselected. rewrite length_split in Hselected.
  split; [exact Hselected|]. intros ->. discriminate.
Qed.

Lemma select_trackers_count_witness :
  select_trackers [("t1", t1)] (Some "t1, t1") = Ok [t1; t1]
  /\ length [t1; t1] = S (occurrences "," "t1, t1").
Proof.
  assert (select_trackers [("t1", t1)] (Some "t1, t1") = Ok [t1; t1]) as H
    by reflexivity.
  split; [exact H|].
  exact (proj1 (select_trackers_count _ _ _ H)).
Defined.

(** The lookups of a list of names stop at the first name that the
    registry does not hold, and go through when there is none. *)
Lemma select_first_missing (known : list (string * Tracker.t))
    (parts : list string) :
  match first_missing known parts with
  | Some missing =>
      traverse (fun t => lookup_tracker (strip t) known) parts
      = Raise (KeyError (VStr missing))
  | None =>
      exists selected,
        traverse (fun t => lookup_tracker (strip t) known) parts = Ok selected
  end.
Proof.
  induction parts as [|p rest IH]; simpl; [now exists []|].
  destruct (has_key (strip p) known) eqn:E.
  - destruct (lookup_tracker_found _ _ E) as (found & ->). simpl.
    destruct (first_missing known rest) as [missing|].
    + now rewrite IH.
    + destruct IH as (selected & ->). now exists (found :: selected).
  - now rewrite (lookup_tracker_missing _ _ E).
Qed.

Lemma first_missing_is_missing (known : list (string * Tracker.t))
    (parts : list string) (missing : string) :
  first_missing known parts = Some missing ->
  exists before part after,
    parts = before ++ part :: after
    /\ missing = strip part
    /\ has_key missing known = false
    /\ Forall (fun name => has_key (strip name) known = true) before.
Proof.
  induction parts as [|p rest IH]; simpl; [discriminate|].
  destruct (has_key (strip p) known) eqn:E.
  - intros Hrest. destruct (IH Hrest) as (before & part & after & -> & Hm & Hk & Hb).
    exists (p :: before), part, after. repeat split; try assumption.
    constructor; assumption.
  - intros H. injection H as <-. exists [], p, rest.
    repeat split; [exact E|constructor].
Qed.

(** X12. When a name of the trackers argument, stripped of its white
    space, is not a key of the registry, [do_evaluate] evaluates nothing,
    not even the trackers named before it: it logs that the first such
    name, written as [repr] writes it, is not found, and returns with no
    call of [execute].  Every name before that one is a key of the
    registry. *)
Theorem do_evaluate_unknown_tracker (w : World) (config : Config)
    (ws : Workspace.t) (known : list (string * Tracker.t))
    (names missing : string) (s : state) :
  open_workspace w (workspace config) = Ok ws ->
  load_trackers w (Workspace.registry ws ++ registry config) = Ok known ->
  trackers config = Some names ->
  first_missing known (split "," names) = Some missing ->
  do_evaluate w config s
  = (Ok tt,
     State (events (loaded config known s)
            ++ [Log ERROR "Tracker not found %s" [VStr (quoted missing)]])
           (disk s))
  /\ executed (snd (do_evaluate w config s)) = executed s
  /\ exists before part after,
       split "," names = before ++ part :: after
       /\ missing = strip part
       /\ has_key missing known = false
       /\ Forall (fun name => has_key (strip name) known = true) before.
Proof.
  intros Hws Hknown Hnames Hmissing.
  pose proof (select_first_missing known (split "," names)) as Hselect.
  rewrite Hmissing in Hselect.
  assert (do_evaluate w config s
          = (Ok tt,
             State (events (loaded config known s)
                    ++ [Log ERROR "Tracker not found %s"
                            [VStr (quoted missing)]])
                   (disk s))) as Hrun.
  { rewrite (do_evaluate_loaded w config ws known s Hws Hknown), Hnames.
    unfold select_trackers. rewrite Hselect. reflexivity. }
  split; [exact Hrun|]. split.
  - rewrite Hrun. cbn [snd].
    change (State (events (loaded config known s) ++ _) (disk s))
      with (State (events (loaded config known s) ++
                   [Log ERROR "Tracker not found %s" [VStr (quoted missing)]])
                  (disk (loaded config known s))).
    now rewrite executed_log, executed_loaded.
  - now apply first_missing_is_missing.
Qed.

Lemma do_evaluate_unknown_tracker_witness :
  first_missing [("t1", t1)] (split "," "t1, t2's ,t3") = Some "t2's"
  /\ do_evaluate (world_of steady) evaluate_t1_t2_t3 initial
     = (Ok tt,
        State [Log INFO "Loaded workspace in '%s'" [VStr "."];
               Log INFO "Found data for %d trackers" [VInt 1];
               Log ERROR "Tracker not found %s"
                   [VStr (quoted "t2's")]] ∅)
  /\ executed (snd (do_evaluate (world_of steady) evaluate_t1_t2_t3 initial)) = []
  /\ quoted "t2's"
     = String double_quote ("t2's" +:+ String double_quote EmptyString).
Proof.
  assert (first_missing [("t1", t1)] (split "," "t1, t2's ,t3") = Some "t2's")
    as Hmissing by reflexivity.
  destruct (do_evaluate_unknown_tracker (world_of steady) evaluate_t1_t2_t3
              (workspace_of steady) [("t1", t1)] "t1, t2's ,t3" "t2's" initial
              eq_refl eq_refl eq_refl Hmissing)
    as (Hrun & Hexecuted & _).
  split; [exact Hmissing|]. split; [exact Hrun|].
  split; [exact Hexecuted|reflexivity].
Defined.

Lemma length_flat_map_uniform {A B : Type} (f : A -> list B) (n : nat)
    (l : list A) :
  (forall x, length (f x) = n) -> length (flat_map f l) = (length l * n)%nat.
Proof.
  intros Hf. induction l as [|x rest IH]; [reflexivity|].
  cbn [flat_map length]. rewrite length_app, Hf, IH. lia.
Qed.

Lemma length_matrix (ws : Workspace.t) (selected : list Tracker.t) :
  length (matrix ws selected)
  = (length selected * (length (Workspace.stack ws)
                        * length (Workspace.dataset ws)))%nat.
Proof.
  unfold matrix. apply length_flat_map_uniform. intros tracker.
  apply length_flat_map_uniform. intros experiment. apply length_map.
Qed.

(** X13. When no call of [execute] raises, [do_evaluate] calls it once
    for every tracker of the argument, every experiment of the stack and
    every sequence of the dataset: the number of calls is the product of
    the three lengths, a tracker named twice being evaluated twice. *)
Theorem do_evaluate_call_count (w : World) (config : Config)
    (ws : Workspace.t) (known : list (string * Tracker.t))
    (selected : list Tracker.t) (s : state) :
  open_workspace w (workspace config) = Ok ws ->
  load_trackers w (Workspace.registry ws ++ registry config) = Ok known ->
  select_trackers known (trackers config) = Ok selected ->
  Forall (fun u => run_unit ws u = Ok tt) (matrix ws selected) ->
  length (executed (snd (do_evaluate w config s)))
  = (length (executed s)
     + length selected * (length (Workspace.stack ws)
                          * length (Workspace.dataset ws)))%nat.
Proof.
  intros Hws Hknown Hselected Hall.
  rewrite (do_evaluate_loaded w config ws known s Hws Hknown), Hselected.
  destruct (evaluate_matrix ws selected (loaded config known s))
    as [r s'] eqn:Erun.
  destruct (evaluate_matrix_runs ws selected _ _ _ Erun) as [Hcalls _].
  rewrite executed_loaded, run_units_all_return in Hcalls by assumption.
  injection Hcalls as -> Hs'. unfold info. rewrite emit_run. cbn [snd].
  rewrite executed_log, Hs', length_app, length_map. f_equal.
  apply length_matrix.
Qed.

Lemma do_evaluate_call_count_witness :
  select_trackers [("t1", t1)] (trackers evaluate_t1) = Ok [t1]
  /\ length (executed (snd (do_evaluate (world_of steady) evaluate_t1 initial)))
     = 2%nat.
Proof.
  split; [reflexivity|].
  assert (Forall (fun u => run_unit (workspace_of steady) u = Ok tt)
                 (matrix (workspace_of steady) [t1])) as Hall
    by (repeat constructor).
  exact (do_evaluate_call_count (world_of steady) evaluate_t1
           (workspace_of steady) [("t1", t1)] [t1] initial
           eq_refl eq_refl eq_refl Hall).
Defined.

(** *** [do_test] *)

Lemma update_frame_run (rt : Runtime) (identifier : string) (last i : Z)
    (s : state) :
  update_frame rt identifier last i s
  = (update rt i,
     State (events s ++ update_events identifier last i) (disk s)).
Proof.
  unfold update_frame, info, emit, lift, mbind, prog_bind. simpl.
  now rewrite <- app_assoc.
Qed.

Lemma updates_return (rt : Runtime) (identifier : string) (last : Z)
    (l : list Z) :
  (forall i, In i l -> update rt i = Ok tt) ->
  forall s,
    forP (update_frame rt identifier last) l s
    = (Ok tt,
       State (events s ++ flat_map (update_events identifier last) l)
             (disk s)).
Proof.
  induction l as [|i rest IH]; intros Hall s.
  - rewrite forP_nil, app_nil_r. now destruct s.
  - rewrite forP_cons, update_frame_run, (Hall i (or_introl eq_refl)).
    rewrite IH by (intros j Hj; apply Hall; now right).
    cbn [events disk flat_map]. now rewrite <- app_assoc.
Qed.

Lemma updates_stop (rt : Runtime) (identifier : string) (last : Z)
    (before after : list Z) (k : Z) (e : exn) :
  (forall i, In i before -> update rt i = Ok tt) ->
  update rt k = Raise e ->
  forall s,
    forP (update_frame rt identifier last) (before ++ k :: after) s
    = (Raise e,
       State (events s
              ++ flat_map (update_events identifier last) (before ++ [k]))
             (disk s)).
Proof.
  induction before as [|i rest IH]; intros Hall Hk s.
  - cbn [app]. rewrite forP_cons, update_frame_run, Hk. cbn [flat_map].
    now rewrite app_nil_r.
  - cbn [app]. rewrite forP_cons, update_frame_run, (Hall i (or_introl eq_refl)).
    rewrite IH by (try (intros j Hj; apply Hall; now right); assumption).
    cbn [events disk flat_map]. now rewrite <- app_assoc.
Qed.

(** [do_test], once the tracker is found and its runtime is initialized. *)
Lemma do_test_initialized (w : World) (config : Config)
    (known : list (string * Tracker.t)) (found : Tracker.t) (rt : Runtime)
    (s : state) :
  load_trackers w (registry config) = Ok known ->
  lookup_tracker (tracker config) known = Ok found ->
  Tracker.runtime found = Ok rt ->
  initialize rt 0 = Ok tt ->
  do_test w config s
  = match forP (update_frame rt (Tracker.identifier found)
                             (Sequence.length (dummy_sequence w) - 1))
               (range 1 (Sequence.length (dummy_sequence w) - 1))
               (State (events s ++ test_prologue (Tracker.identifier found))
                      (disk s)) with
    | (Ok _, s') => (Ok tt, State (events s' ++ [test_concluded]) (disk s'))
    | (Raise e, s') => (Raise e, s')
    end.
Proof.
  intros Hknown Hfound Hrt Hinit.
  unfold do_test. rewrite bind_run, lift_run, Hknown.
  rewrite (lookup_tracker_has_key _ _ _ Hfound). cbn [negb].
  rewrite bind_run, lift_run, Hfound.
  unfold info. rewrite bind_run, emit_run, bind_run, emit_run.
  rewrite bind_run, lift_run, Hrt.
  rewrite bind_run, emit_run, bind_run, emit_run, bind_run, lift_run, Hinit.
  rewrite bind_run. cbn [events disk]. unfold test_prologue.
  rewrite <- !app_assoc. cbn [app].
  change (fun i : Z => _ ≫= _)
    with (update_frame rt (Tracker.identifier found)
                       (Sequence.length (dummy_sequence w) - 1)).
  destruct (forP _ _ _) as [[[]|e] s']; [|reflexivity].
  rewrite emit_run. reflexivity.
Qed.

Lemma frames_updates (identifier : string) (last : Z) (l : list Z) :
  List.filter is_frame_event (flat_map (update_events identifier last) l)
  = map (Updated identifier) l.
Proof.
  induction l as [|i rest IH]; [reflexivity|]. simpl. now rewrite IH.
Qed.

(** X14. When the tracker is found and its runtime answers every call,
    [do_test] initializes the runtime on frame 0, updates it on the frames
    1 to length - 2 of the dummy sequence, in order, and concludes: the
    last frame of the sequence, of number length - 1, is never given to
    the tracker, and a sequence of at most two frames gives no update. *)
Theorem do_test_frames (w : World) (config : Config)
    (known : list (string * Tracker.t)) (found : Tracker.t) (rt : Runtime)
    (s : state) :
  load_trackers w (registry config) = Ok known ->
  lookup_tracker (tracker config) known = Ok found ->
  Tracker.runtime found = Ok rt ->
  initialize rt 0 = Ok tt ->
  (forall i, 1 <= i < Sequence.length (dummy_sequence w) - 1 ->
             update rt i = Ok tt) ->
  let updated := range 1 (Sequence.length (dummy_sequence w) - 1) in
  fst (do_test w config s) = Ok tt
  /\ frames (snd (do_test w config s))
     = frames s
       ++ Initialized (Tracker.identifier found) 0
          :: map (Updated (Tracker.identifier found)) updated
  /\ (forall i, In i updated
                <-> 1 <= i < Sequence.length (dummy_sequence w) - 1)
  /\ In test_concluded (events (snd (do_test w config s))).
Proof.
  intros Hknown Hfound Hrt Hinit Hupdates updated.
  assert (forall i, In i updated
                    <-> 1 <= i < Sequence.length (dummy_sequence w) - 1)
    as Hrange.
  { intros i. unfold updated, range.
    rewrite <- list_elem_of_In, elem_of_seqZ. lia. }
  rewrite (do_test_initialized w config known found rt s
             Hknown Hfound Hrt Hinit).
  fold updated. rewrite updates_return
    by (intros i Hi; apply Hupdates; now apply Hrange).
  cbn [fst snd events disk]. split; [reflexivity|]. split.
  - unfold frames. cbn [events].
    rewrite !List.filter_app, frames_updates. cbn.
    rewrite ?app_nil_r. rewrite <- ?app_assoc. reflexivity.
  - split; [exact Hrange|]. apply in_or_app. right. now left.
Qed.

Lemma do_test_frames_witness :
  fst (do_test world_with_stack test_t1 initial) = Ok tt
  /\ frames (snd (do_test world_with_stack test_t1 initial))
     = [Initialized "t1" 0; Updated "t1" 1; Updated "t1" 2; Updated "t1" 3]
  /\ ~ In 4 (range 1 (Sequence.length five_frames - 1)).
Proof.
  destruct (do_test_frames world_with_stack test_t1
              [("t1", t1); ("t3", t3); ("t4", t4)] t1 steady_runtime initial
              eq_refl eq_refl eq_refl eq_refl (fun i _ => eq_refl))
    as (Hreturn & Hframes & Hrange & _).
  split; [exact Hreturn|]. split; [exact Hframes|].
  intros Hin. apply Hrange in Hin. simpl in Hin. lia.
Defined.

(** X15. When the runtime raises at the update on a frame, [do_test] stops
    there: the exception leaves [do_test], the frames after it are not
    given to the tracker, and the test is not reported as concluded. *)
Theorem do_test_update_fails (w : World) (config : Config)
    (known : list (string * Tracker.t)) (found : Tracker.t) (rt : Runtime)
    (before after : list Z) (k : Z) (e : exn) (s : state) :
  load_trackers w (registry config) = Ok known ->
  lookup_tracker (tracker config) known = Ok found ->
  Tracker.runtime found = Ok rt ->
  initialize rt 0 = Ok tt ->
  range 1 (Sequence.length (dummy_sequence w) - 1) = before ++ k :: after ->
  (forall i, In i before -> update rt i = Ok tt) ->
  update rt k = Raise e ->
  ~ In test_concluded (events s) ->
  fst (do_test w config s) = Raise e
  /\ frames (snd (do_test w config s))
     = frames s
       ++ Initialized (Tracker.identifier found) 0
          :: map (Updated (Tracker.identifier found)) (before ++ [k])
  /\ ~ In test_concluded (events (snd (do_test w config s))).
Proof.
  intros Hknown Hfound Hrt Hinit Hsplit Hbefore Hk Hnot.
  rewrite (do_test_initialized w config known found rt s
             Hknown Hfound Hrt Hinit), Hsplit.
  rewrite (updates_stop rt _ _ before after k e Hbefore Hk).
  cbn [fst snd events disk]. split; [reflexivity|]. split.
  - unfold frames. cbn [events].
    rewrite !List.filter_app, frames_updates. cbn.
    rewrite ?app_nil_r. rewrite <- ?app_assoc. reflexivity.
  - rewrite !in_app_iff. intros [[Hin|Hin]|Hin]; [now apply Hnot| |].
    + simpl in Hin. unfold test_concluded in Hin.
      destruct Hin as [H|[H|[H|[H|[]]]]]; discriminate.
    + apply in_flat_map in Hin as (i & _ & Hin). simpl in Hin.
      unfold test_concluded in Hin. destruct Hin as [H|[H|[]]]; discriminate.
Qed.

Lemma do_test_update_fails_witness :
  fst (do_test world_with_stack test_t4 initial) = Raise (Failure "lost")
  /\ frames (snd (do_test world_with_stack test_t4 initial))
     = [Initialized "t4" 0; Updated "t4" 1; Updated "t4" 2]
  /\ ~ In test_concluded (events (snd (do_test world_with_stack test_t4 initial))).
Proof.
  destruct (do_test_update_fails world_with_stack test_t4
              [("t1", t1); ("t3", t3); ("t4", t4)] t4 flaky_runtime
              [1] [3] 2 (Failure "lost") initial
              eq_refl eq_refl eq_refl eq_refl eq_refl)
    as (Hraise & Hframes & Hnot).
  - intros i [<-|[]]. reflexivity.
  - reflexivity.
  - intros [].
  - split; [exact Hraise|]. split; [exact Hframes|exact Hnot].
Defined.

(** *** [do_workspace] *)

Lemma os_path_join_sequences (workspace : string) :
  os_path_join (Str workspace) [Str "sequences"]
  = Ok (sequences_path workspace).
Proof.
  unfold os_path_join, sequences_path. simpl.
  destruct ((workspace =? "")%string || ends_with_sep workspace); reflexivity.
Qed.

(** X16. [do_workspace] has a dataset downloaded only for a stack that is
    found and carries one, only after the workspace was initialized
    without an exception, and only into the directory [sequences] of the
    workspace. *)
Theorem do_workspace_download (w : World) (config : Config) (s : state)
    (bundle path : string) :
  In (DatasetDownloaded bundle path) (events (snd (do_workspace w config s))) ->
  ~ In (DatasetDownloaded bundle path) (events s) ->
  exists found,
    resolve_stack w (stack config) = Some found
    /\ dataset found = Some bundle
    /\ initialize_workspace w (workspace config) (stack config) = Ok tt
    /\ path = sequences_path (workspace config).
Proof.
  unfold do_workspace.
  destruct (resolve_stack w (stack config)) as [found|].
  2:{ unfold error. rewrite emit_run. cbn [snd events].
      rewrite in_app_iff. intros [Hin|[H|[]]] Hnot;
        [contradiction|discriminate]. }
  rewrite bind_run, emit_run, bind_run, lift_run. cbn [events disk].
  destruct (initialize_workspace w (workspace config) (stack config))
    as [[]|e].
  2:{ cbn [snd events]. rewrite in_app_iff. intros [Hin|[H|[]]] Hnot;
        [contradiction|discriminate]. }
  unfold info. rewrite bind_run, emit_run. cbn [events disk].
  destruct (dataset found) as [b|] eqn:Edataset.
  2:{ cbn [snd events mret prog_ret]. rewrite !in_app_iff.
      intros [[Hin|[H|[]]]|[H|[]]] Hnot; try contradiction; discriminate. }
  rewrite bind_run, emit_run, bind_run, lift_run, os_path_join_sequences.
  rewrite bind_run, emit_run, bind_run, lift_run. cbn [events disk].
  intros Hin Hnot.
  assert (In (DatasetDownloaded bundle path)
             ((((events s ++ [WorkspaceInitialized (workspace config)
                                                   (stack config)])
                ++ [Log INFO "Initialized workspace in '%s'"
                        [VStr (workspace config)]])
               ++ [Log INFO
                     "Stack has a dataset attached, downloading bundle '%s'"
                     [VStr b]])
              ++ [DatasetDownloaded b (sequences_path (workspace config))]))
    as Hevents.
  { destruct (download_vot_dataset w b (sequences_path (workspace config)))
      as [[]|e]; cbn [snd events] in Hin; [|exact Hin].
    rewrite emit_run in Hin. cbn [snd events] in Hin.
    apply in_app_or in Hin as [Hin|[H|[]]]; [exact Hin|discriminate]. }
  rewrite !in_app_iff in Hevents.
  destruct Hevents as [[[[Hs|[H|[]]]|[H|[]]]|[H|[]]]|[H|[]]];
    try contradiction; try discriminate.
  injection H as <- <-. exists found. repeat split. exact Edataset.
Qed.

Lemma do_workspace_download_witness :
  In (DatasetDownloaded "vot2020" "here/sequences")
     (events (snd (do_workspace world_with_stack workspace_here initial)))
  /\ sequences_path (workspace workspace_here) = "here/sequences".
Proof.
  assert (In (DatasetDownloaded "vot2020" "here/sequences")
             (events (snd (do_workspace world_with_stack workspace_here
                             initial)))) as Hin.
  { vm_compute. tauto. }
  split; [exact Hin|].
  destruct (do_workspace_download world_with_stack workspace_here initial
              "vot2020" "here/sequences" Hin (fun H => H))
    as (found & _ & _ & _ & Hpath).
  now symmetry.
Defined.

(** *** [do_pack] *)

Lemma foldP_disk {A S : Type} (f : S -> A -> prog S) :
  (forall acc x s r s', f acc x s = (r, s') -> disk s' = disk s) ->
  forall l acc s r s', foldP f acc l s = (r, s') -> disk s' = disk s.
Proof.
  intros Hstep. induction l as [|x rest IH]; intros acc s r s' Hrun.
  - rewrite foldP_nil in Hrun. now injection Hrun as _ <-.
  - rewrite foldP_cons in Hrun.
    destruct (f acc x s) as [[acc1|e] s1] eqn:E.
    + rewrite (IH _ _ _ _ Hrun). exact (Hstep _ _ _ _ _ E).
    + injection Hrun as _ <-. exact (Hstep _ _ _ _ _ E).
Qed.

Lemma scan_unit_disk (ws : Workspace.t) (tracker : Tracker.t)
    (experiment : Experiment.t) (acc : list entry * bool) (q : Sequence.t)
    (s : state) (r : result (list entry * bool)) (s' : state) :
  scan_unit ws tracker experiment acc q s = (r, s') -> disk s' = disk s.
Proof.
  destruct acc as [all_files can_finish].
  unfold scan_unit, error, emit, lift, mbind, mret, prog_bind, prog_ret.
  simpl.
  destruct (Experiment.scan experiment tracker q _) as [[[] files]|e];
    simpl; intros H; injection H as _ <-; reflexivity.
Qed.

Lemma scan_matrix_disk (ws : Workspace.t) (tracker : Tracker.t) (s : state)
    (r : result (list entry * bool)) (s' : state) :
  scan_matrix ws tracker s = (r, s') -> disk s' = disk s.
Proof.
  unfold scan_matrix. apply foldP_disk.
  intros acc experiment s0 r0 s0'. unfold info.
  rewrite bind_run, emit_run. intros Hrun.
  apply (foldP_disk (scan_unit ws tracker experiment)) in Hrun;
    [exact Hrun|].
  intros. eapply scan_unit_disk. eassumption.
Qed.

Lemma do_pack_disk (w : World) (config : Config) (s : state) :
  disk (snd (do_pack w config s)) = disk s
  \/ exists found,
       disk (snd (do_pack w config s))
       = <[archive_name w found := []]> (disk s).
Proof.
  destruct (open_workspace w (workspace config)) as [ws|e] eqn:Ews.
  2:{ left. unfold do_pack. now rewrite bind_run, lift_run, Ews. }
  destruct (load_trackers w (Workspace.registry ws ++ registry config))
    as [known|e] eqn:Eknown.
  2:{ left. unfold do_pack, info.
      now rewrite bind_run, lift_run, Ews, bind_run, emit_run, bind_run,
        lift_run, Eknown. }
  rewrite (do_pack_loaded w config ws known s Ews Eknown).
  destruct (lookup_tracker (tracker config) known) as [found|e].
  2:{ left. destruct e; reflexivity. }
  destruct (scan_matrix ws found (packaging config known found s))
    as [[[all_files can_finish]|e] s1] eqn:Escan;
    pose proof (scan_matrix_disk _ _ _ _ _ Escan) as Hdisk;
    cbn [packaging disk] in Hdisk.
  2:{ left. exact Hdisk. }
  destruct can_finish; cbn [negb].
  - right. exists found. rewrite build_archive_run.
    destruct all_files; cbn [snd disk]; now rewrite Hdisk.
  - left. unfold error. rewrite emit_run. exact Hdisk.
Qed.

(** X17. [do_pack] never stores a member in an archive: whatever the
    world, the arguments and the scans, an archive that is on disk once it
    is done either was there before with the same members, or is empty. *)
Theorem do_pack_stores_nothing (w : World) (config : Config) (s : state)
    (name : string) (members : archive) :
  disk (snd (do_pack w config s)) !! name = Some members ->
  disk s !! name = Some members \/ members = [].
Proof.
  destruct (do_pack_disk w config s) as [->|(found & ->)]; [now left|].
  destruct (decide (archive_name w found = name)) as [<-|Hne].
  - rewrite lookup_insert_eq. intros H. injection H as <-. now right.
  - rewrite lookup_insert_ne by exact Hne. now left.
Qed.

Lemma do_pack_stores_nothing_witness :
  disk (snd (do_pack (world_of steady) pack_t1 initial))
    !! "t1_2020-01-01T00:00:00.000000" = Some []
  /\ (disk initial !! "t1_2020-01-01T00:00:00.000000" = Some []
      \/ ([] : archive) = []).
Proof.
  assert (disk (snd (do_pack (world_of steady) pack_t1 initial))
            !! "t1_2020-01-01T00:00:00.000000" = Some []) as H
    by reflexivity.
  split; [exact H|].
  exact (do_pack_stores_nothing _ _ _ _ _ H).
Defined.



(** *** [main] *)

(** X19. [main] runs a command only for the five names its dispatcher
    compares the action with; for any other action, and when no action is
    given, it prints the help and exits with status 0 without running
    anything.  [analysis], the name under which the parser declares the
    analysis command, is not one of the five, the dispatcher comparing
    with [analyze]. *)
Theorem main_prints_help (w : World) (args : Config) (s : state) :
  match action args with
  | Some name => dispatched name = false
  | None => True
  end ->
  main w args s
  = (Exit 0,
     State (events (started args s) ++ [HelpPrinted]) (disk s)).
Proof.
  intros Haction. unfold main. rewrite dispatch_run.
  assert (disk (started args s) = disk s) as Hdisk
    by (unfold started; now destruct (debug args)).
  unfold started in *.
  destruct (action args) as [name|].
  - unfold dispatched in Haction. rewrite !orb_false_iff in Haction.
    destruct Haction as ((((-> & ->) & ->) & ->) & ->).
    rewrite emit_run, Hdisk. reflexivity.
  - rewrite emit_run, Hdisk. reflexivity.
Qed.

Lemma main_prints_help_witness :
  dispatched "analysis" = false
  /\ main (world_of steady) analysis_here initial
     = (Exit 0, State [SetLevel DEBUG; HelpPrinted] ∅).
Proof.
  split; [reflexivity|].
  exact (main_prints_help (world_of steady) analysis_here initial eq_refl).
Defined.

End DriverFacts.
